(** * daytona_sdk.sandbox: the lifecycle waiter and the metadata setters

    A shallow embedding of [src/daytona_sdk/sandbox.py].  The methods of
    [Sandbox] that poll the remote state ([wait_for_sandbox_start],
    [wait_for_sandbox_stop] and their deprecated aliases), together with
    [set_autostop_interval] and [set_labels], are written as computations
    in a small state-and-exception monad over a [world] that carries a
    logical clock and the log of the calls made to the outside. *)

From Stdlib Require Import ZArith NArith List Bool String Ascii Lia.
From stdpp Require Import base numbers option list gmap strings pretty.

Local Open Scope string_scope.

(** ** Python values and strings *)

(** The values the modelled methods receive where the source is not typed
    at run time.  [PyObject cls text] is an object of any other class, with
    its class name and what [str()] makes of it (a float, a list, ...). *)
Inductive PyValue : Type :=
| PyNone
| PyBool (b : bool)
| PyInt (n : Z)
| PyStr (s : string)
| PyObject (cls : string) (text : string).

(** [isinstance(v, bool)] *)
Definition isinstance_bool (v : PyValue) : bool :=
  match v with PyBool _ => true | _ => false end.

(** [isinstance(v, int)]: in Python [bool] is a subclass of [int]. *)
Definition isinstance_int (v : PyValue) : bool :=
  match v with PyBool _ | PyInt _ => true | _ => false end.

(** The integer an [int] instance stands for in a comparison. *)
Definition int_value (v : PyValue) : Z :=
  match v with
  | PyInt n => n
  | PyBool b => if b then 1 else 0
  | _ => 0
  end.

(** [str(v)] *)
Definition str (v : PyValue) : string :=
  match v with
  | PyNone => "None"
  | PyBool b => if b then "True" else "False"
  | PyInt n => pretty n
  | PyStr s => s
  | PyObject _ text => text
  end.

(** What an f-string makes of an [Optional[str]] field. *)
Definition format_optional (o : option string) : string :=
  match o with Some s => s | None => "None" end.

Definition lower_char (c : ascii) : ascii :=
  let n := nat_of_ascii c in
  if (65 <=? n)%nat && (n <=? 90)%nat then ascii_of_nat (n + 32) else c.

(** [s.lower()], on the ASCII letters. *)
Fixpoint lower (s : string) : string :=
  match s with
  | EmptyString => EmptyString
  | String c t => String (lower_char c) (lower t)
  end.

(** [s.startswith(p)] *)
Fixpoint startswith (p s : string) : bool :=
  match p, s with
  | EmptyString, _ => true
  | String _ _, EmptyString => false
  | String a p', String b s' => if Ascii.eqb a b then startswith p' s' else false
  end.

(** [needle in hay] on strings. *)
Fixpoint contains (needle hay : string) : bool :=
  startswith needle hay
  || match hay with
     | EmptyString => false
     | String _ t => contains needle t
     end.

(** ** Exceptions *)

(** An exception object: its class and what [str(e)] returns. *)
Record PyException : Type := mkException {
  exc_class : string;
  exc_str : string
}.

Definition DaytonaError (message : string) : PyException :=
  {| exc_class := "DaytonaError"; exc_str := message |}.

(** ** The outside world *)

(** The fields of the API's sandbox object that the waiters read. *)
Record ApiSandbox : Type := mkApiSandbox {
  state : string;
  error_reason : option string
}.

(** One answer of the remote API: how long the call took (milliseconds)
    and whether it raised or returned. *)
Record reply (A : Type) : Type := mkReply {
  took : N;
  answer : PyException + A
}.
Arguments mkReply {A} _ _.
Arguments took {A} _.
Arguments answer {A} _.

Abbreviation labels_payload := (gmap string (gmap string string)).

(** [SandboxApi], the generated client, as the SDK sees it: the answer to
    the k-th [get_workspace] call (counted from 0), and the answers to the
    two setters. *)
Record SandboxApi : Type := mkSandboxApi {
  get_workspace_reply : nat -> reply ApiSandbox;
  set_autostop_interval_reply : string -> PyValue -> reply unit;
  replace_labels_reply : string -> labels_payload -> reply PyValue
}.

(** The calls that leave the process, as they are logged. *)
Inductive call : Type :=
| GetWorkspace (id : string)
| Sleep (ms : N)
| SetAutostopInterval (id : string) (interval : PyValue)
| ReplaceLabels (id : string) (payload : labels_payload)
| Warn (category : string) (message : string).

Record event : Type := mkEvent {
  issued_at : N;
  action : call
}.

(** The clock is in milliseconds; the log has the newest event first. *)
Record world : Type := mkWorld {
  clock : N;
  log : list event
}.

Definition is_query (e : event) : bool :=
  match action e with GetWorkspace _ => true | _ => false end.

Definition is_sleep (e : event) : bool :=
  match action e with Sleep _ => true | _ => false end.

(** How many status queries, and how many sleeps, a log records. *)
Definition queries (l : list event) : nat := length (List.filter is_query l).
Definition sleeps (l : list event) : nat := length (List.filter is_sleep l).

(** ** The monad: state, exceptions, and fuel for [while] *)

Inductive outcome (A : Type) : Type :=
| Return (a : A)
| Raise (e : PyException)
| Running.
Arguments Return {A} _.
Arguments Raise {A} _.
Arguments Running {A}.

Definition Py (St A : Type) : Type := St -> outcome A * St.

Definition ret {St A} (a : A) : Py St A := fun s => (Return a, s).

Definition bind {St A B} (c : Py St A) (k : A -> Py St B) : Py St B :=
  fun s =>
    match c s with
    | (Return a, s') => k a s'
    | (Raise e, s') => (Raise e, s')
    | (Running, s') => (Running, s')
    end.

Definition raise {St A} (e : PyException) : Py St A := fun s => (Raise e, s).

Declare Scope py_scope.
Delimit Scope py_scope with py.
Notation "x <- c ;; k" := (bind c (fun x => k))
  (at level 100, c at next level, right associativity) : py_scope.
Notation "c ;; k" := (bind c (fun _ => k))
  (at level 100, right associativity) : py_scope.
Local Open Scope py_scope.

(** [try: body except Exception as e: handler e] *)
Definition try_except {St A} (body : Py St A) (handler : PyException -> Py St A)
  : Py St A :=
  fun s =>
    match body s with
    | (Raise e, s') => handler e s'
    | r => r
    end.

(** [while cond: body], unrolled at most [fuel] times. *)
Fixpoint while {St} (cond : St -> bool) (body : Py St unit) (fuel : nat)
  : Py St unit :=
  fun s =>
    if cond s then
      match fuel with
      | O => (Running, s)
      | S fuel' => (body ;; while cond body fuel') s
      end
    else (Return tt, s).

(** A method's frame: the local variable [state] next to the world. *)
Definition frame : Type := option string * world.

(** Runs a computation on the world inside a larger state. *)
Definition lift {L A} (c : Py world A) : Py (L * world) A :=
  fun s =>
    let (r, w') := c (snd s) in (r, (fst s, w')).

(** [state = v] *)
Definition assign_state (v : string) : Py frame unit :=
  fun s => (Return tt, (Some v, snd s)).

(** Runs a method body whose local [state] starts as [None]. *)
Definition with_state_None {A} (c : Py frame A) : Py world A :=
  fun w =>
    let (r, s') := c (None, w) in (r, snd s').

Definition state_is_not (target : string) (s : frame) : bool :=
  match fst s with
  | Some v => negb (String.eqb v target)
  | None => true
  end.

(** ** Primitive effects *)

Definition emit (a : call) : Py world unit :=
  fun w =>
    (Return tt,
     {| clock := clock w; log := {| issued_at := clock w; action := a |} :: log w |}).

Definition elapse (ms : N) : Py world unit :=
  fun w => (Return tt, {| clock := (clock w + ms)%N; log := log w |}).

(** Waits for the answer of a remote call: time passes, then the call
    returns or raises. *)
Definition receive {A} (r : reply A) : Py world A :=
  elapse (took r) ;;
  match answer r with
  | inl e => raise e
  | inr a => ret a
  end.

(** [time.sleep(0.1)] is [time_sleep 100]. *)
Definition time_sleep (ms : N) : Py world unit :=
  emit (Sleep ms) ;; elapse ms.

(** [sandbox_api.get_workspace(id)]: the k-th call gets the k-th answer. *)
Definition get_workspace (api : SandboxApi) (id : string) : Py world ApiSandbox :=
  fun w =>
    (emit (GetWorkspace id) ;; receive (get_workspace_reply api (queries (log w)))) w.

(** ** The sandbox object *)

(** [SandboxInstance]: the one attribute the modelled methods write. *)
Record SandboxInstance : Type := mkSandboxInstance {
  auto_stop_interval : PyValue
}.

Record Sandbox : Type := mkSandbox {
  id : string;
  instance : SandboxInstance;
  sandbox_api : SandboxApi
}.

(** ** Decorators *)

(** [@deprecated(reason=...)], from the [deprecated] package: warns, then
    calls the function. *)
Definition deprecated {A} (reason : string) (func : Py world A) : Py world A :=
  emit (Warn "DeprecationWarning" reason) ;; func.

(** What is left of a world when a call is abandoned at [deadline]: the
    events issued up to then. *)
Definition cut_at (deadline : N) (w : world) : world :=
  {| clock := deadline;
     log := List.filter (fun e => (issued_at e <=? deadline)%N) (log w) |}.

(** The text of the error for a negative timeout; the spec fixes none. *)
Definition invalid_timeout_message : string :=
  "Timeout must be a non-negative number".

(** Modelled from the spec: [_utils.timeout.with_timeout] is not among the
    sources.  After the spec: a negative timeout is a caller error, rejected
    before the loop is entered and before any query; timeout 0 means no
    deadline; with a timeout above 0, when the elapsed time exceeds the
    timeout before the wrapped function has finished, the call fails with the
    error built by [error_message] (which the source passes in).  The
    timeout is in seconds, the clock in milliseconds. *)
Definition with_timeout (error_message : Sandbox -> Z -> string)
    (func : Sandbox -> Z -> nat -> Py world unit)
    (self : Sandbox) (timeout : Z) (fuel : nat) : Py world unit :=
  fun w =>
    if (timeout <? 0)%Z then (Raise (DaytonaError invalid_timeout_message), w)
    else if (timeout =? 0)%Z then func self timeout fuel w
    else
      let deadline := (clock w + Z.to_N (timeout * 1000))%N in
      let (r, w') := func self timeout fuel w in
      if (deadline <? clock w')%N
      then (Raise (DaytonaError (error_message self timeout)), cut_at deadline w')
      else (r, w').

Section Methods.

(** What [intercept_errors] makes of an exception raised under a given
    [message_prefix]: the spec speaks of error-message wrapping and says no
    more, so the wrapping is a parameter of the development. *)
Variable reraised : string -> PyException -> PyException.

(** Modelled from the spec: [_utils.errors.intercept_errors] is not among
    the sources.  It lets a normal return through and surfaces a raised
    exception wrapped, touching nothing else. *)
Definition intercept_errors {St A} (message_prefix : string) (func : Py St A)
  : Py St A :=
  fun s =>
    match func s with
    | (Raise e, s') => (Raise (reraised message_prefix e), s')
    | r => r
    end.

(** ** The waiters *)

Definition start_error_message (self : Sandbox) (response : ApiSandbox) : string :=
  "Sandbox " +:+ id self +:+ " failed to start with state: " +:+ state response
  +:+ ", error reason: " +:+ format_optional (error_reason response).

(** One turn of the loop of [wait_for_sandbox_start]. *)
Definition start_poll (self : Sandbox) : Py frame unit :=
  response <- lift (get_workspace (sandbox_api self) (id self)) ;;
  assign_state (state response) ;;
  (if String.eqb (state response) "error"
   then raise (DaytonaError (start_error_message self response))
   else ret tt) ;;
  lift (time_sleep 100).

(** The function [wait_for_sandbox_start] as written, under its
    decorators; [timeout] is not used by it. *)
Definition wait_for_sandbox_start_wrapped (self : Sandbox) (timeout : Z)
    (fuel : nat) : Py world unit :=
  with_state_None (while (state_is_not "started") (start_poll self) fuel).

Definition start_timeout_message (self : Sandbox) (timeout : Z) : string :=
  "Sandbox " +:+ id self +:+ " failed to become ready within the "
  +:+ pretty timeout +:+ " seconds timeout period".

Definition wait_for_sandbox_start (self : Sandbox) (timeout : Z) (fuel : nat)
  : Py world unit :=
  intercept_errors "Failure during waiting for sandbox to start: "
    (with_timeout start_timeout_message wait_for_sandbox_start_wrapped
       self timeout fuel).

Definition wait_for_workspace_start (self : Sandbox) (timeout : Z) (fuel : nat)
  : Py world unit :=
  deprecated
    "Method is deprecated. Use `wait_for_sandbox_start` instead. This method will be removed in a future version."
    (wait_for_sandbox_start self timeout fuel).

Definition stop_error_message (self : Sandbox) (response : ApiSandbox) : string :=
  "Sandbox " +:+ id self +:+ " failed to stop with status: " +:+ state response
  +:+ ", error reason: " +:+ format_optional (error_reason response).

(** One turn of the loop of [wait_for_sandbox_stop]. *)
Definition stop_poll (self : Sandbox) : Py frame unit :=
  try_except
    (response <- lift (get_workspace (sandbox_api self) (id self)) ;;
     assign_state (state response) ;;
     if String.eqb (state response) "error"
     then raise (DaytonaError (stop_error_message self response))
     else ret tt)
    (fun e =>
       if negb (contains "validation error" (exc_str e))
       then raise e
       else ret tt) ;;
  lift (time_sleep 100).

(** The function [wait_for_sandbox_stop] as written, under its
    decorators; [timeout] is not used by it. *)
Definition wait_for_sandbox_stop_wrapped (self : Sandbox) (timeout : Z)
    (fuel : nat) : Py world unit :=
  with_state_None (while (state_is_not "stopped") (stop_poll self) fuel).

Definition stop_timeout_message (self : Sandbox) (timeout : Z) : string :=
  "Sandbox " +:+ id self +:+ " failed to become stopped within the "
  +:+ pretty timeout +:+ " seconds timeout period".

Definition wait_for_sandbox_stop (self : Sandbox) (timeout : Z) (fuel : nat)
  : Py world unit :=
  intercept_errors "Failure during waiting for sandbox to stop: "
    (with_timeout stop_timeout_message wait_for_sandbox_stop_wrapped
       self timeout fuel).

Definition wait_for_workspace_stop (self : Sandbox) (timeout : Z) (fuel : nat)
  : Py world unit :=
  deprecated
    "Method is deprecated. Use `wait_for_sandbox_stop` instead. This method will be removed in a future version."
    (wait_for_sandbox_stop self timeout fuel).

(** ** The setters *)

(** [sandbox_api.set_autostop_interval(id, interval)] *)
Definition api_set_autostop_interval (api : SandboxApi) (id : string)
    (interval : PyValue) : Py world unit :=
  emit (SetAutostopInterval id interval) ;;
  receive (set_autostop_interval_reply api id interval).

(** [self.instance.auto_stop_interval = v], on the object [self]. *)
Definition assign_auto_stop_interval (v : PyValue) : Py (Sandbox * world) unit :=
  fun s =>
    (Return tt,
     ({| id := id (fst s);
         instance := {| auto_stop_interval := v |};
         sandbox_api := sandbox_api (fst s) |},
      snd s)).

(** The body of [set_autostop_interval]; the state is the object [self]
    next to the world. *)
Definition set_autostop_interval_wrapped (interval : PyValue)
  : Py (Sandbox * world) unit :=
  fun s =>
    let self := fst s in
    ((if (if negb (isinstance_int interval) then true
          else (int_value interval <? 0)%Z)
      then raise (DaytonaError "Auto-stop interval must be a non-negative integer")
      else ret tt) ;;
     lift (api_set_autostop_interval (sandbox_api self) (id self) interval) ;;
     assign_auto_stop_interval interval) s.

Definition set_autostop_interval (interval : PyValue) : Py (Sandbox * world) unit :=
  intercept_errors "Failed to set auto-stop interval: "
    (set_autostop_interval_wrapped interval).

(** [sandbox_api.replace_labels(id, payload)] *)
Definition api_replace_labels (api : SandboxApi) (id : string)
    (payload : labels_payload) : Py world PyValue :=
  emit (ReplaceLabels id payload) ;;
  receive (replace_labels_reply api id payload).

(** The value of one label as it is sent. *)
Definition label_text (v : PyValue) : string :=
  if isinstance_bool v then lower (str v) else str v.

(** The body of [set_labels]. *)
Definition set_labels_wrapped (self : Sandbox) (labels : gmap string PyValue)
  : Py world PyValue :=
  let string_labels : gmap string string := label_text <$> labels in
  let labels_payload : labels_payload := {[ "labels" := string_labels ]} in
  api_replace_labels (sandbox_api self) (id self) labels_payload.

Definition set_labels (self : Sandbox) (labels : gmap string PyValue)
  : Py world PyValue :=
  intercept_errors "Failed to set labels: " (set_labels_wrapped self labels).

End Methods.

(** * The vocabulary of the proofs *)

(** ** Worlds the loops reach *)

(** The world after the next [get_workspace] has been answered. *)
Definition queried (self : Sandbox) (w : world) : world :=
  {| clock := (clock w
               + took (get_workspace_reply (sandbox_api self) (queries (log w))))%N;
     log := {| issued_at := clock w; action := GetWorkspace (id self) |} :: log w |}.

(** The world after [time.sleep(0.1)]. *)
Definition slept (w : world) : world :=
  {| clock := (clock w + 100)%N;
     log := {| issued_at := clock w; action := Sleep 100 |} :: log w |}.

(** The world after one query and the sleep that follows it. *)
Definition polled (self : Sandbox) (w : world) : world := slept (queried self w).

(** [w'] continues [w]: time has not run backwards, and the log has grown
    by events issued from the clock of [w] on. *)
Definition extends (w w' : world) : Prop :=
  (clock w <= clock w')%N
  /\ exists new, log w' = (new ++ log w)%list
       /\ Forall (fun e => (clock w <= issued_at e)%N) new.

(** ** The two loops as one machine *)

(** What one turn of a waiting loop makes of the answer it gets. *)
Inductive verdict : Type :=
| Done
| Failed (e : PyException)
| Again.

(** The turn of [wait_for_sandbox_start], read off [start_poll]. *)
Definition start_verdict (self : Sandbox) (r : reply ApiSandbox) : verdict :=
  match answer r with
  | inl e => Failed e
  | inr response =>
      if String.eqb (state response) "error"
      then Failed (DaytonaError (start_error_message self response))
      else if String.eqb (state response) "started" then Done else Again
  end.

(** The turn of [wait_for_sandbox_stop], read off [stop_poll]: whatever is
    raised inside the [try], by the query or by the loop itself, goes
    through the [except] clause. *)
Definition stop_verdict (self : Sandbox) (r : reply ApiSandbox) : verdict :=
  let handled e :=
    if contains "validation error" (exc_str e) then Again else Failed e in
  match answer r with
  | inl e => handled e
  | inr response =>
      if String.eqb (state response) "error"
      then handled (DaytonaError (stop_error_message self response))
      else if String.eqb (state response) "stopped" then Done else Again
  end.

(** A loop that asks, and then stops, fails or sleeps and asks again. *)
Fixpoint polling (turn : reply ApiSandbox -> verdict) (self : Sandbox)
    (fuel : nat) (w : world) : outcome unit * world :=
  match fuel with
  | O => (Running, w)
  | S fuel' =>
      match turn (get_workspace_reply (sandbox_api self) (queries (log w))) with
      | Done => (Return tt, polled self w)
      | Failed e => (Raise e, queried self w)
      | Again => polling turn self fuel' (polled self w)
      end
  end.

(** Dropping the frame of a finished method call. *)
Definition leave {A} (x : outcome A * frame) : outcome A * world :=
  (fst x, snd (snd x)).

(** The world after [n] turns that all came out as [Again]. *)
Fixpoint polls (self : Sandbox) (n : nat) (w : world) : world :=
  match n with
  | O => w
  | S n' => polls self n' (polled self w)
  end.

(** ** The two waiters side by side *)

Inductive operation : Type := Start | Stop.

Definition target_state (op : operation) : string :=
  match op with Start => "started" | Stop => "stopped" end.

Definition wait_wrapped (op : operation) : Sandbox -> Z -> nat -> Py world unit :=
  match op with
  | Start => wait_for_sandbox_start_wrapped
  | Stop => wait_for_sandbox_stop_wrapped
  end.

Definition wait_for (op : operation) (reraised : string -> PyException -> PyException)
  : Sandbox -> Z -> nat -> Py world unit :=
  match op with
  | Start => wait_for_sandbox_start reraised
  | Stop => wait_for_sandbox_stop reraised
  end.

Definition legacy_wait_for (op : operation)
    (reraised : string -> PyException -> PyException)
  : Sandbox -> Z -> nat -> Py world unit :=
  match op with
  | Start => wait_for_workspace_start reraised
  | Stop => wait_for_workspace_stop reraised
  end.

Definition turn_of (op : operation) (self : Sandbox) : reply ApiSandbox -> verdict :=
  match op with Start => start_verdict self | Stop => stop_verdict self end.

Definition timeout_message (op : operation) : Sandbox -> Z -> string :=
  match op with Start => start_timeout_message | Stop => stop_timeout_message end.

Definition error_state_message (op : operation) : Sandbox -> ApiSandbox -> string :=
  match op with Start => start_error_message | Stop => stop_error_message end.

Definition message_prefix (op : operation) : string :=
  match op with
  | Start => "Failure during waiting for sandbox to start: "
  | Stop => "Failure during waiting for sandbox to stop: "
  end.

(** The instant, on the clock of [w], at which a call made at [w] with
    [timeout] seconds is abandoned. *)
Definition deadline (timeout : Z) (w : world) : N :=
  (clock w + Z.to_N (timeout * 1000))%N.

(** ** Sample sandboxes *)

Definition epoch : world := {| clock := 0; log := [] |}.

(** A query answered after 5 ms with a state and an error reason. *)
Definition status (s : string) (reason : option string) : reply ApiSandbox :=
  {| took := 5; answer := inr {| state := s; error_reason := reason |} |}.

(** A query that raises after 5 ms. *)
Definition failure (cls msg : string) : reply ApiSandbox :=
  {| took := 5; answer := inl {| exc_class := cls; exc_str := msg |} |}.

(** A remote that gives the listed answers in turn, and [rest] for ever
    after. *)
Definition scripted (answers : list (reply ApiSandbox)) (rest : reply ApiSandbox)
  : SandboxApi :=
  {| get_workspace_reply := fun k => nth k answers rest;
     set_autostop_interval_reply := fun _ _ => {| took := 5; answer := inr tt |};
     replace_labels_reply := fun _ _ => {| took := 5; answer := inr PyNone |} |}.

Definition sandbox_of (api : SandboxApi) : Sandbox :=
  {| id := "sb-1";
     instance := {| auto_stop_interval := PyInt 15 |};
     sandbox_api := api |}.

(** One way [intercept_errors] may wrap: a [DaytonaError] with the prefix
    put before the text. *)
Definition prefixed (message_prefix : string) (e : PyException) : PyException :=
  DaytonaError (message_prefix +:+ exc_str e).

(** A stopping sandbox that reports [error] with a reason that mentions a
    validation error, and is then seen [stopped]. *)
Definition sandbox_error_then_stopped : Sandbox :=
  sandbox_of
    (scripted [status "error" (Some "validation error: snapshot not found")]
       (status "stopped" None)).

(** A sandbox that never leaves [pending]. *)
Definition sandbox_always_pending : Sandbox :=
  sandbox_of (scripted [] (status "pending" None)).

(** A starting sandbox seen [pending] twice and [started] from then on. *)
Definition sandbox_starting : Sandbox :=
  sandbox_of
    (scripted [status "pending" None; status "pending" None] (status "started" None)).

Definition sandbox_started : Sandbox := sandbox_of (scripted [] (status "started" None)).
Definition sandbox_stopped : Sandbox := sandbox_of (scripted [] (status "stopped" None)).

(** A stopping sandbox whose first five queries fail to validate. *)
Definition sandbox_flaky_stop : Sandbox :=
  sandbox_of
    (scripted
       (repeat (failure "ValidationError" "1 validation error for Workspace") 5)
       (status "stopped" None)).

(** A sandbox that is [pending] once, after which the API is unreachable. *)
Definition sandbox_unreachable : Sandbox :=
  sandbox_of
    (scripted [status "pending" None] (failure "ApiException" "(503) Service Unavailable")).

(** A starting sandbox that is [pending] for fifty queries, each answered
    after 5 ms. *)
Definition sandbox_slow_start : Sandbox :=
  sandbox_of (scripted (repeat (status "pending" None) 50) (status "started" None)).

(** ** What a caller observes *)

(** The events a caller can tell apart by what reaches the remote and by
    how long the call blocks: status queries and sleeps. *)
Definition is_io (e : event) : bool := is_query e || is_sleep e.

(** Two worlds with one clock and one sequence of queries and sleeps. *)
Definition same_io (w1 w2 : world) : Prop :=
  clock w1 = clock w2
  /\ List.filter is_io (log w1) = List.filter is_io (log w2).

(** ** More sample sandboxes *)

(** A starting sandbox seen [pending] once and then in [error] because of
    "boom". *)
Definition sandbox_failing_start : Sandbox :=
  sandbox_of
    (scripted [status "pending" None; status "error" (Some "boom")]
       (status "started" None)).

(** A stopping sandbox seen [stopping] once and then in [error], with no
    reason given. *)
Definition sandbox_failing_stop : Sandbox :=
  sandbox_of
    (scripted [status "stopping" None; status "error" None] (status "stopped" None)).

(** A remote whose answers never validate. *)
Definition sandbox_never_validates : Sandbox :=
  sandbox_of (scripted [] (failure "ValidationError" "1 validation error for Workspace")).

(** A stopping sandbox seen [pending], then one query that fails to
    validate, then [stopped]. *)
Definition sandbox_hiccup_stop : Sandbox :=
  sandbox_of
    (scripted
       [status "pending" None;
        failure "ValidationError" "1 validation error for Workspace"]
       (status "stopped" None)).

(** ** The pace of a loop *)

(** [follows a b]: in the log of one loop, [a] may come right after [b].
    After a query comes a sleep of 100 ms, issued no earlier than the
    query; after a sleep comes a query, issued once the sleep is over. *)
Definition follows (a b : event) : bool :=
  match action b, action a with
  | GetWorkspace _, Sleep ms => (ms =? 100)%N && (issued_at b <=? issued_at a)%N
  | Sleep ms, GetWorkspace _ => (issued_at b + ms <=? issued_at a)%N
  | _, _ => false
  end.

(** A log, newest event first, that begins in time with a query and in
    which queries and sleeps take turns as [follows] demands. *)
Fixpoint paced (l : list event) : bool :=
  match l with
  | [] => true
  | a :: rest =>
      match rest with
      | [] => is_query a
      | b :: _ => follows a b && paced rest
      end
  end.

(** ** What the loops send *)

(** The two calls a waiter of [self] makes: a status query for the id of
    [self], and a sleep of 100 ms. *)
Definition polls_only (self : Sandbox) (e : event) : bool :=
  match action e with
  | GetWorkspace i => String.eqb i (id self)
  | Sleep ms => (ms =? 100)%N
  | _ => false
  end.

(** ** The resources of [to_sandbox_info] *)

(** [SandboxResources] *)
Record SandboxResources : Type := mkSandboxResources {
  cpu : string;
  memory : string;
  disk : string;
  gpu : option string
}.

(** The quotas of the API's sandbox object, as [to_sandbox_info] reads
    them: each is a whole number or [None]. *)
Record ApiQuotas : Type := mkApiQuotas {
  api_cpu : option Z;
  api_gpu : option Z;
  api_memory : option Z;
  api_disk : option Z
}.

(** The truth value of an optional number: [None] and 0 are false. *)
Definition truthy (q : option Z) : bool :=
  match q with
  | Some n => negb (n =? 0)%Z
  | None => false
  end.

Definition of_quota (q : option Z) : PyValue :=
  match q with Some n => PyInt n | None => PyNone end.

(** [q or default] *)
Definition or_default (q : option Z) (default : string) : PyValue :=
  if truthy q then of_quota q else PyStr default.

(** The [resources] that [to_sandbox_info] builds (lines 514-519). *)
Definition to_sandbox_info_resources (instance : ApiQuotas) : SandboxResources :=
  {| cpu := str (or_default (api_cpu instance) "1");
     gpu := if truthy (api_gpu instance)
            then Some (str (of_quota (api_gpu instance)))
            else None;
     memory := str (or_default (api_memory instance) "2") +:+ "Gi";
     disk := str (or_default (api_disk instance) "10") +:+ "Gi" |}.

(** ** The warning of the deprecated names *)

(** The [reason] given to [@deprecated] on each legacy waiter. *)
Definition deprecation_reason (op : operation) : string :=
  match op with
  | Start =>
      "Method is deprecated. Use `wait_for_sandbox_start` instead. This method will be removed in a future version."
  | Stop =>
      "Method is deprecated. Use `wait_for_sandbox_stop` instead. This method will be removed in a future version."
  end.

(** [w1] is [w2] with the event [ev] logged once, at some point in the
    past. *)
Definition logged_once (ev : event) (w1 w2 : world) : Prop :=
  clock w1 = clock w2
  /\ exists new old,
       log w1 = (new ++ ev :: old)%list /\ log w2 = (new ++ old)%list.

(** Labels of several types, as a caller may pass them. *)
Definition sample_labels : gmap string PyValue :=
  <["debug" := PyBool true]> (<["replicas" := PyInt 3]> (<["team" := PyStr "backend"]> ∅)).

(** * Properties *)

(** ** Strings *)

Lemma startswith_app (p s : string) : startswith p (p +:+ s) = true.
Proof.
  induction p as [|c p IH]; simpl.
  - reflexivity.
  - rewrite Ascii.eqb_refl. exact IH.
Qed.

Lemma contains_here (p s : string) : contains p (p +:+ s) = true.
Proof.
  destruct (p +:+ s) eqn:E; simpl; rewrite <- E, startswith_app; reflexivity.
Qed.

Lemma contains_skip (p a s : string) :
  contains p s = true -> contains p (a +:+ s) = true.
Proof.
  intros H. induction a as [|c a IH]; simpl.
  - exact H.
  - rewrite IH. apply orb_true_r.
Qed.

(** A piece that is spliced into a text is found in it. *)
Lemma contains_spliced (p a b : string) : contains p (a +:+ p +:+ b) = true.
Proof. apply contains_skip, contains_here. Qed.

Lemma append_empty (p : string) : p +:+ "" = p.
Proof.
  induction p as [|c p IH]; [reflexivity|].
  change (String c (p +:+ "") = String c p). f_equal. exact IH.
Qed.

Lemma contains_suffix (p a : string) : contains p (a +:+ p) = true.
Proof.
  apply contains_skip. rewrite <- (append_empty p) at 2. apply contains_here.
Qed.

(** ** Worlds *)

Lemma extends_refl (w : world) : extends w w.
Proof. split; [lia|]. exists []. split; [reflexivity | constructor]. Qed.

Lemma extends_trans (w1 w2 w3 : world) :
  extends w1 w2 -> extends w2 w3 -> extends w1 w3.
Proof.
  intros [H12 (n12 & E12 & F12)] [H23 (n23 & E23 & F23)].
  split; [lia|].
  exists (n23 ++ n12)%list. split.
  - rewrite E23, E12. apply app_assoc.
  - apply Forall_app. split; [|exact F12].
    eapply Forall_impl; [exact F23|]. simpl. intros e He. lia.
Qed.

Lemma extends_queried (self : Sandbox) (w : world) : extends w (queried self w).
Proof.
  split; simpl; [lia|].
  eexists [_]. split; [reflexivity|]. repeat constructor. simpl. lia.
Qed.

Lemma extends_slept (w : world) : extends w (slept w).
Proof.
  split; simpl; [lia|].
  eexists [_]. split; [reflexivity|]. repeat constructor. simpl. lia.
Qed.

Lemma extends_polled (self : Sandbox) (w : world) : extends w (polled self w).
Proof. eapply extends_trans; [apply extends_queried | apply extends_slept]. Qed.

Lemma queries_polled (self : Sandbox) (w : world) :
  queries (log (polled self w)) = S (queries (log w)).
Proof. reflexivity. Qed.

Lemma sleeps_polled (self : Sandbox) (w : world) :
  sleeps (log (polled self w)) = S (sleeps (log w)).
Proof. reflexivity. Qed.

Lemma clock_polled (self : Sandbox) (w : world) :
  (clock w + 100 <= clock (polled self w))%N.
Proof. simpl. lia. Qed.

(** Events issued after the deadline do not survive the cut. *)
Lemma cut_at_extends (deadline : N) (w w' : world) :
  extends w w' -> (deadline < clock w)%N ->
  cut_at deadline w' = cut_at deadline w.
Proof.
  intros [_ (new & E & F)] Hd. unfold cut_at. f_equal.
  rewrite E, List.filter_app.
  replace (List.filter _ new) with (@nil event); [reflexivity|].
  symmetry. clear E. induction F as [|e l He _ IH]; simpl; [reflexivity|].
  destruct (N.leb_spec (issued_at e) deadline); [lia | exact IH].
Qed.

(** ** The two loops as one machine *)

Lemma start_poll_eq (self : Sandbox) (st : option string) (w : world) :
  start_poll self (st, w) =
  match answer (get_workspace_reply (sandbox_api self) (queries (log w))) with
  | inl e => (Raise e, (st, queried self w))
  | inr response =>
      if String.eqb (state response) "error"
      then (Raise (DaytonaError (start_error_message self response)),
            (Some (state response), queried self w))
      else (Return tt, (Some (state response), polled self w))
  end.
Proof.
  unfold start_poll, bind, lift, get_workspace, receive, emit, elapse, bind,
    raise, ret, assign_state, time_sleep, polled, slept, queried; simpl.
  destruct (answer _) as [e|response]; simpl; [reflexivity|].
  destruct (String.eqb _ _); reflexivity.
Qed.

Lemma stop_poll_eq (self : Sandbox) (st : option string) (w : world) :
  stop_poll self (st, w) =
  match answer (get_workspace_reply (sandbox_api self) (queries (log w))) with
  | inl e =>
      if contains "validation error" (exc_str e)
      then (Return tt, (st, polled self w))
      else (Raise e, (st, queried self w))
  | inr response =>
      if String.eqb (state response) "error"
      then if contains "validation error" (stop_error_message self response)
           then (Return tt, (Some (state response), polled self w))
           else (Raise (DaytonaError (stop_error_message self response)),
                 (Some (state response), queried self w))
      else (Return tt, (Some (state response), polled self w))
  end.
Proof.
  unfold stop_poll, try_except, bind, lift, get_workspace, receive, emit, elapse,
    bind, raise, ret, assign_state, time_sleep, polled, slept, queried; simpl.
  destruct (answer _) as [e|response]; simpl.
  - destruct (contains _ _); reflexivity.
  - destruct (String.eqb _ _); simpl; [|reflexivity].
    destruct (contains _ _); reflexivity.
Qed.

Lemma with_state_None_leave {A} (c : Py frame A) (w : world) :
  with_state_None c w = leave (c (None, w)).
Proof. unfold with_state_None, leave. destruct (c (None, w)); reflexivity. Qed.

Lemma start_loop_polling (self : Sandbox) (fuel : nat) :
  forall st w, state_is_not "started" (st, w) = true ->
  leave (while (state_is_not "started") (start_poll self) fuel (st, w))
  = polling (start_verdict self) self fuel w.
Proof.
  induction fuel as [|fuel IH]; intros st w Hst; simpl; rewrite Hst.
  - reflexivity.
  - unfold bind. rewrite start_poll_eq. unfold start_verdict.
    destruct (answer _) as [e|response]; [reflexivity|].
    destruct (String.eqb (state response) "error") eqn:Eerr; [reflexivity|].
    destruct (String.eqb (state response) "started") eqn:Etgt.
    + destruct fuel; simpl; unfold state_is_not; simpl; rewrite Etgt; reflexivity.
    + apply IH. unfold state_is_not; simpl. rewrite Etgt. reflexivity.
Qed.

Lemma stop_loop_polling (self : Sandbox) (fuel : nat) :
  forall st w, state_is_not "stopped" (st, w) = true ->
  leave (while (state_is_not "stopped") (stop_poll self) fuel (st, w))
  = polling (stop_verdict self) self fuel w.
Proof.
  induction fuel as [|fuel IH]; intros st w Hst; simpl; rewrite Hst.
  - reflexivity.
  - unfold bind. rewrite stop_poll_eq. unfold stop_verdict.
    destruct (answer _) as [e|response].
    + destruct (contains _ _); [|reflexivity]. apply IH. exact Hst.
    + destruct (String.eqb (state response) "error") eqn:Eerr.
      * simpl exc_str. destruct (contains _ _); [|reflexivity].
        apply IH. apply String.eqb_eq in Eerr.
        unfold state_is_not; simpl. rewrite Eerr. reflexivity.
      * destruct (String.eqb (state response) "stopped") eqn:Etgt.
        -- destruct fuel; simpl; unfold state_is_not; simpl; rewrite Etgt;
             reflexivity.
        -- apply IH. unfold state_is_not; simpl. rewrite Etgt. reflexivity.
Qed.

(** The loop of [wait_for_sandbox_start] is the machine driven by
    [start_verdict]. *)
Lemma start_wrapped_polling (self : Sandbox) (timeout : Z) (fuel : nat) (w : world) :
  wait_for_sandbox_start_wrapped self timeout fuel w
  = polling (start_verdict self) self fuel w.
Proof.
  unfold wait_for_sandbox_start_wrapped. rewrite with_state_None_leave.
  apply start_loop_polling. reflexivity.
Qed.

(** The loop of [wait_for_sandbox_stop] is the machine driven by
    [stop_verdict]. *)
Lemma stop_wrapped_polling (self : Sandbox) (timeout : Z) (fuel : nat) (w : world) :
  wait_for_sandbox_stop_wrapped self timeout fuel w
  = polling (stop_verdict self) self fuel w.
Proof.
  unfold wait_for_sandbox_stop_wrapped. rewrite with_state_None_leave.
  apply stop_loop_polling. reflexivity.
Qed.

(** ** What the machine does, whatever the turn *)

Section Polling.

Variable turn : reply ApiSandbox -> verdict.
Variable self : Sandbox.

Lemma queries_polls (n : nat) (w : world) :
  queries (log (polls self n w)) = (queries (log w) + n)%nat.
Proof.
  revert w. induction n as [|n IH]; intros w; simpl polls.
  - lia.
  - rewrite IH, queries_polled. lia.
Qed.

Lemma sleeps_polls (n : nat) (w : world) :
  sleeps (log (polls self n w)) = (sleeps (log w) + n)%nat.
Proof.
  revert w. induction n as [|n IH]; intros w; simpl polls.
  - lia.
  - rewrite IH, sleeps_polled. lia.
Qed.

Lemma extends_polls (n : nat) (w : world) : extends w (polls self n w).
Proof.
  revert w. induction n as [|n IH]; intros w; simpl polls.
  - apply extends_refl.
  - eapply extends_trans; [apply extends_polled | apply IH].
Qed.

Lemma clock_polls (n : nat) (w : world) :
  (clock w + 100 * N.of_nat n <= clock (polls self n w))%N.
Proof.
  revert w. induction n as [|n IH]; intros w; simpl polls.
  - lia.
  - specialize (IH (polled self w)). pose proof (clock_polled self w). lia.
Qed.

(** As long as the answers say [Again], the loop goes on from the world
    those turns leave. *)
Lemma polling_again_prefix (n : nat) :
  forall m w,
  (forall i, (i < n)%nat -> turn (get_workspace_reply (sandbox_api self) (queries (log w) + i)) = Again) ->
  polling turn self (n + m) w = polling turn self m (polls self n w).
Proof.
  induction n as [|n IH]; intros m w Hpre; [reflexivity|].
  simpl. pose proof (Hpre 0%nat ltac:(lia)) as H0.
  rewrite Nat.add_0_r in H0. rewrite H0.
  apply IH. intros i Hi. rewrite queries_polled.
  replace (S (queries (log w)) + i)%nat with (queries (log w) + S i)%nat by lia.
  apply Hpre. lia.
Qed.

(** Every finished or unfinished run is a number of [Again] turns, and
    then what the next answer decides. *)
Lemma polling_inv (fuel : nat) :
  forall w r w', polling turn self fuel w = (r, w') ->
  exists n, (n <= fuel)%nat
    /\ (forall i, (i < n)%nat -> turn (get_workspace_reply (sandbox_api self) (queries (log w) + i)) = Again)
    /\ match r with
       | Running => n = fuel /\ w' = polls self n w
       | Return _ =>
           (n < fuel)%nat
           /\ turn (get_workspace_reply (sandbox_api self) (queries (log w) + n)) = Done
           /\ w' = polled self (polls self n w)
       | Raise e =>
           (n < fuel)%nat
           /\ turn (get_workspace_reply (sandbox_api self) (queries (log w) + n)) = Failed e
           /\ w' = queried self (polls self n w)
       end.
Proof.
  induction fuel as [|fuel IH]; intros w r w' H; simpl in H.
  - inversion H; subst. exists 0%nat. repeat split; [lia|]. intros i Hi; lia.
  - destruct (turn _) eqn:Et.
    + inversion H; subst. exists 0%nat. split; [lia|]. split; [intros i Hi; lia|].
      rewrite Nat.add_0_r. repeat split; [lia | exact Et].
    + inversion H; subst. exists 0%nat. split; [lia|]. split; [intros i Hi; lia|].
      rewrite Nat.add_0_r. repeat split; [lia | exact Et].
    + destruct (IH _ _ _ H) as (n & Hn & Hpre & Hr).
      rewrite queries_polled in Hpre, Hr.
      exists (S n). split; [lia|]. split.
      * intros [|i] Hi; [rewrite Nat.add_0_r; exact Et|].
        replace (queries (log w) + S i)%nat with (S (queries (log w)) + i)%nat
          by lia.
        apply Hpre. lia.
      * replace (queries (log w) + S n)%nat with (S (queries (log w)) + n)%nat
          by lia.
        destruct r as [[]|e|]; simpl polls.
        -- destruct Hr as (? & ? & ?). repeat split; [lia | assumption..].
        -- destruct Hr as (? & ? & ?). repeat split; [lia | assumption..].
        -- destruct Hr as (? & ?). split; [lia | assumption].
Qed.

(** A run never takes the world back. *)
Lemma polling_extends (fuel : nat) (w : world) (r : outcome unit) (w' : world) :
  polling turn self fuel w = (r, w') -> extends w w'.
Proof.
  intros H. destruct (polling_inv _ _ _ _ H) as (n & _ & _ & Hr).
  destruct r as [[]|e|].
  - destruct Hr as (_ & _ & ->).
    eapply extends_trans; [apply extends_polls | apply extends_polled].
  - destruct Hr as (_ & _ & ->).
    eapply extends_trans; [apply extends_polls | apply extends_queried].
  - destruct Hr as (_ & ->). apply extends_polls.
Qed.

(** A run that is still going has slept once per unit of fuel. *)
Lemma polling_running_clock (fuel : nat) (w w' : world) :
  polling turn self fuel w = (Running, w') ->
  (clock w + 100 * N.of_nat fuel <= clock w')%N.
Proof.
  intros H. destruct (polling_inv _ _ _ _ H) as (n & _ & _ & -> & ->).
  apply clock_polls.
Qed.

(** Once a run has finished, more fuel changes nothing. *)
Lemma polling_more_fuel (n m : nat) (w : world) (r : outcome unit) (w' : world) :
  polling turn self n w = (r, w') -> r <> Running -> (n <= m)%nat ->
  polling turn self m w = (r, w').
Proof.
  intros H Hr Hnm. destruct (polling_inv _ _ _ _ H) as (k & Hk & Hpre & Hres).
  destruct r as [[]|e|]; [| |congruence].
  - destruct Hres as (Hlt & Hd & ->).
    replace m with (k + S (m - S k))%nat by lia.
    rewrite polling_again_prefix by exact Hpre.
    simpl. rewrite queries_polls. rewrite Hd. reflexivity.
  - destruct Hres as (Hlt & Hd & ->).
    replace m with (k + S (m - S k))%nat by lia.
    rewrite polling_again_prefix by exact Hpre.
    simpl. rewrite queries_polls. rewrite Hd. reflexivity.
Qed.

(** With more fuel, a run that was still going continues from where it
    stood. *)
Lemma polling_running_extends (n m : nat) (w w1 : world) (r : outcome unit)
    (w2 : world) :
  (n <= m)%nat ->
  polling turn self n w = (Running, w1) ->
  polling turn self m w = (r, w2) ->
  extends w1 w2.
Proof.
  intros Hnm H1 H2.
  destruct (polling_inv _ _ _ _ H1) as (k & _ & Hpre & -> & ->).
  replace m with (n + (m - n))%nat in H2 by lia.
  rewrite polling_again_prefix in H2 by exact Hpre.
  eapply polling_extends. exact H2.
Qed.

End Polling.

(** ** The two waiters side by side *)

Lemma wait_wrapped_polling (op : operation) (self : Sandbox) (timeout : Z)
    (fuel : nat) (w : world) :
  wait_wrapped op self timeout fuel w = polling (turn_of op self) self fuel w.
Proof.
  destruct op; [apply start_wrapped_polling | apply stop_wrapped_polling].
Qed.

(** A waiter with its decorators, in one equation. *)
Lemma wait_for_eq (op : operation) (reraised : string -> PyException -> PyException)
    (self : Sandbox) (timeout : Z) (fuel : nat) (w : world) :
  wait_for op reraised self timeout fuel w =
  if (timeout <? 0)%Z
  then (Raise (reraised (message_prefix op) (DaytonaError invalid_timeout_message)), w)
  else
    let (r, w') := polling (turn_of op self) self fuel w in
    if (0 <? timeout)%Z && (deadline timeout w <? clock w')%N
    then (Raise (reraised (message_prefix op)
                   (DaytonaError (timeout_message op self timeout))),
          cut_at (deadline timeout w) w')
    else (match r with Raise e => Raise (reraised (message_prefix op) e) | _ => r end,
          w').
Proof.
  transitivity
    (intercept_errors reraised (message_prefix op)
       (with_timeout (timeout_message op) (wait_wrapped op) self timeout fuel) w);
    [destruct op; reflexivity|].
  unfold intercept_errors, with_timeout. rewrite wait_wrapped_polling.
  destruct (Z.ltb_spec timeout 0); [reflexivity|].
  destruct (Z.eqb_spec timeout 0) as [->|Hne].
  - simpl. destruct (polling _ _ _ _) as [[[]|e|] w']; reflexivity.
  - replace (0 <? timeout)%Z with true by (symmetry; apply Z.ltb_lt; lia).
    unfold deadline. simpl.
    destruct (polling _ _ _ _) as [r w'].
    destruct (_ <? _)%N; [reflexivity|].
    destruct r as [[]|e|]; reflexivity.
Qed.

(** Once a waiter has finished, more fuel changes neither its outcome nor
    the world it leaves. *)
Lemma wait_for_more_fuel (op : operation)
    (reraised : string -> PyException -> PyException)
    (self : Sandbox) (timeout : Z) (n m : nat) (w : world)
    (r : outcome unit) (w' : world) :
  wait_for op reraised self timeout n w = (r, w') -> r <> Running -> (n <= m)%nat ->
  wait_for op reraised self timeout m w = (r, w').
Proof.
  rewrite !wait_for_eq. intros H Hr Hnm.
  destruct (timeout <? 0)%Z; [exact H|].
  destruct (polling _ _ n w) as [r1 w1] eqn:E1.
  destruct (polling _ _ m w) as [r2 w2] eqn:E2.
  assert (Hext : extends w1 w2).
  { destruct r1 as [[]|e|].
    - rewrite (polling_more_fuel _ _ _ _ _ _ _ E1 ltac:(discriminate) Hnm) in E2.
      inversion E2; subst. apply extends_refl.
    - rewrite (polling_more_fuel _ _ _ _ _ _ _ E1 ltac:(discriminate) Hnm) in E2.
      inversion E2; subst. apply extends_refl.
    - eapply polling_running_extends; eassumption. }
  destruct (0 <? timeout)%Z; simpl in *.
  - destruct (N.ltb_spec (deadline timeout w) (clock w1)) as [Hlate|Hin].
    + destruct Hext as [Hc Hlog].
      destruct (N.ltb_spec (deadline timeout w) (clock w2)); [|lia].
      inversion H; subst. f_equal.
      apply cut_at_extends; [split; assumption | exact Hlate].
    + assert (r1 <> Running) by (intros ->; inversion H; subst; congruence).
      rewrite (polling_more_fuel _ _ _ _ _ _ _ E1 ltac:(assumption) Hnm) in E2.
      inversion E2; subst.
      destruct (N.ltb_spec (deadline timeout w) (clock w2)); [lia | exact H].
  - assert (r1 <> Running) by (intros ->; inversion H; subst; congruence).
    rewrite (polling_more_fuel _ _ _ _ _ _ _ E1 ltac:(assumption) Hnm) in E2.
    inversion E2; subst. exact H.
Qed.

(** With a deadline, a waiter has finished once it has fuel for the turns
    that fit before the deadline. *)
Lemma wait_for_finishes (op : operation)
    (reraised : string -> PyException -> PyException)
    (self : Sandbox) (timeout : Z) (w : world) :
  (0 < timeout)%Z ->
  fst (wait_for op reraised self timeout (S (Z.to_nat (timeout * 10))) w) <> Running.
Proof.
  intros Hpos. rewrite wait_for_eq.
  destruct (Z.ltb_spec timeout 0); [discriminate|].
  destruct (polling _ _ _ w) as [r1 w1] eqn:E1.
  replace (0 <? timeout)%Z with true by (symmetry; apply Z.ltb_lt; lia).
  simpl andb.
  destruct (N.ltb_spec (deadline timeout w) (clock w1)) as [Hlate|Hin];
    [discriminate|].
  destruct r1 as [[]|e|]; simpl; try discriminate.
  apply polling_running_clock in E1. unfold deadline in Hin. lia.
Qed.

Lemma polls_succ (self : Sandbox) (n : nat) (w : world) :
  polls self (S n) w = polled self (polls self n w).
Proof.
  revert w. induction n as [|n IH]; intros w; [reflexivity|].
  change (polls self (S (S n)) w) with (polls self (S n) (polled self w)).
  rewrite IH. reflexivity.
Qed.

(** A loop that is still going after [n] turns goes on from the world it
    has reached. *)
Lemma polling_resume (turn : reply ApiSandbox -> verdict) (self : Sandbox)
    (n m : nat) (w wn : world) :
  polling turn self n w = (Running, wn) ->
  polling turn self (n + m) w = polling turn self m wn.
Proof.
  intros H. destruct (polling_inv _ _ _ _ _ _ H) as (k & _ & Hpre & -> & ->).
  apply polling_again_prefix. exact Hpre.
Qed.

(** * The waiters *)

(** X5.  On the start path an [error] state ends the wait on the turn that
    sees it, whatever the reason, and the reason is in the message. *)
Lemma start_error_state_raises (self : Sandbox) (timeout : Z) (n fuel : nat)
    (w wn : world) (response : ApiSandbox) :
  wait_for_sandbox_start_wrapped self timeout n w = (Running, wn) ->
  answer (get_workspace_reply (sandbox_api self) (queries (log wn))) = inr response ->
  state response = "error" ->
  (n < fuel)%nat ->
  wait_for_sandbox_start_wrapped self timeout fuel w
  = (Raise (DaytonaError (start_error_message self response)), queried self wn)
  /\ contains (format_optional (error_reason response))
       (start_error_message self response) = true.
Proof.
  intros Hrun Hans Herr Hfuel. split.
  - rewrite start_wrapped_polling in *.
    replace fuel with (n + S (fuel - S n))%nat by lia.
    rewrite (polling_resume _ _ _ _ _ _ Hrun). simpl.
    unfold start_verdict. rewrite Hans, Herr. reflexivity.
  - unfold start_error_message.
    do 4 apply contains_skip. apply contains_suffix.
Qed.

(** X6.  On the stop path the same holds as long as the message built for
    the error state does not read as a validation error. *)
Lemma stop_error_state_raises (self : Sandbox) (timeout : Z) (n fuel : nat)
    (w wn : world) (response : ApiSandbox) :
  wait_for_sandbox_stop_wrapped self timeout n w = (Running, wn) ->
  answer (get_workspace_reply (sandbox_api self) (queries (log wn))) = inr response ->
  state response = "error" ->
  contains "validation error" (stop_error_message self response) = false ->
  (n < fuel)%nat ->
  wait_for_sandbox_stop_wrapped self timeout fuel w
  = (Raise (DaytonaError (stop_error_message self response)), queried self wn)
  /\ contains (format_optional (error_reason response))
       (stop_error_message self response) = true.
Proof.
  intros Hrun Hans Herr Hmsg Hfuel. split.
  - rewrite stop_wrapped_polling in *.
    replace fuel with (n + S (fuel - S n))%nat by lia.
    rewrite (polling_resume _ _ _ _ _ _ Hrun). cbn [polling].
    unfold stop_verdict. rewrite Hans, Herr, String.eqb_refl.
    change (exc_str (DaytonaError (stop_error_message self response)))
      with (stop_error_message self response).
    rewrite Hmsg. reflexivity.
  - unfold stop_error_message.
    do 4 apply contains_skip. apply contains_suffix.
Qed.

(** C1 (code bug).  The claim: on both paths a status of [error] ends the
    wait at once with an error that carries the remote reason, whatever
    the reason.  On the stop path the [DaytonaError] raised for the error
    state is caught by the loop's own [except] clause; when its text
    contains "validation error" it is dropped and polling goes on.  Here
    the reason is "validation error: snapshot not found": the stop waiter
    asks a second time and returns normally, where the start waiter, on
    the same answers, raises on the first turn. *)
Theorem stop_wait_swallows_error_state :
  let stop := wait_for_sandbox_stop_wrapped sandbox_error_then_stopped 60 2 epoch in
  let start := wait_for_sandbox_start_wrapped sandbox_error_then_stopped 60 2 epoch in
  fst stop = Return tt
  /\ queries (log (snd stop)) = 2%nat
  /\ fst (wait_for_sandbox_stop prefixed sandbox_error_then_stopped 0 2 epoch)
     = Return tt
  /\ fst start
     = Raise (DaytonaError
         "Sandbox sb-1 failed to start with state: error, error reason: validation error: snapshot not found")
  /\ queries (log (snd start)) = 1%nat.
Proof. vm_compute. repeat split; reflexivity. Qed.

(** ** Success, and how a wait ends *)

(** A turn says [Done] only on an answer that shows the target state. *)
Lemma turn_done (op : operation) (self : Sandbox) (r : reply ApiSandbox) :
  turn_of op self r = Done ->
  exists response, answer r = inr response /\ state response = target_state op.
Proof.
  destruct op; simpl; unfold start_verdict, stop_verdict;
    destruct (answer r) as [e|response].
  - discriminate.
  - destruct (String.eqb _ "error"); [discriminate|].
    destruct (String.eqb _ "started") eqn:E; [|discriminate].
    intros _. exists response. split; [reflexivity | now apply String.eqb_eq].
  - destruct (contains _ _); discriminate.
  - destruct (String.eqb _ "error").
    + destruct (contains _ _); discriminate.
    + destruct (String.eqb _ "stopped") eqn:E; [|discriminate].
      intros _. exists response. split; [reflexivity | now apply String.eqb_eq].
Qed.

(** When the query returned, a turn fails only on the [error] state, with
    the message built for it. *)
Lemma turn_failed_on_status (op : operation) (self : Sandbox)
    (r : reply ApiSandbox) (response : ApiSandbox) (e : PyException) :
  answer r = inr response ->
  turn_of op self r = Failed e ->
  state response = "error"
  /\ e = DaytonaError (error_state_message op self response).
Proof.
  intros Hans. destruct op; simpl; unfold start_verdict, stop_verdict;
    rewrite Hans.
  - destruct (String.eqb _ "error") eqn:E.
    + intros [= <-]. split; [now apply String.eqb_eq | reflexivity].
    + destruct (String.eqb _ "started"); discriminate.
  - destruct (String.eqb _ "error") eqn:E.
    + destruct (contains _ _); [discriminate|].
      intros [= <-]. split; [now apply String.eqb_eq | reflexivity].
    + destruct (String.eqb _ "stopped"); discriminate.
Qed.

(** A state that is neither the target nor [error] sends the loop round
    again. *)
Lemma turn_again_on_status (op : operation) (self : Sandbox)
    (r : reply ApiSandbox) (response : ApiSandbox) :
  answer r = inr response ->
  state response <> target_state op ->
  state response <> "error" ->
  turn_of op self r = Again.
Proof.
  intros Hans Htgt Herr.
  apply String.eqb_neq in Herr.
  destruct op; simpl in *; unfold start_verdict, stop_verdict;
    apply String.eqb_neq in Htgt; rewrite Hans, Herr, Htgt; reflexivity.
Qed.

(** The target state ends the loop. *)
Lemma turn_done_on_target (op : operation) (self : Sandbox)
    (r : reply ApiSandbox) (response : ApiSandbox) :
  answer r = inr response ->
  state response = target_state op ->
  turn_of op self r = Done.
Proof.
  intros Hans Htgt.
  destruct op; simpl in *; unfold start_verdict, stop_verdict;
    rewrite Hans, Htgt; reflexivity.
Qed.

Lemma always_pending_running (op : operation) (fuel : nat) (w : world) :
  polling (turn_of op sandbox_always_pending) sandbox_always_pending fuel w
  = (Running, polls sandbox_always_pending fuel w).
Proof.
  rewrite <- (Nat.add_0_r fuel) at 1.
  rewrite polling_again_prefix; [reflexivity|].
  intros i _. simpl get_workspace_reply.
  destruct (queries (log w) + i)%nat; destruct op; reflexivity.
Qed.

(** C2, against the claim as stated: called with timeout 0 on a sandbox
    that stays [pending], neither waiter ever ends, whatever the fuel; the
    same holds of the loops under the decorators. *)
Lemma unbounded_wait_never_ends :
  ~ (exists op fuel,
       fst (wait_for op prefixed sandbox_always_pending 0 fuel epoch) <> Running)
  /\ ~ (exists op fuel,
       fst (wait_wrapped op sandbox_always_pending 0 fuel epoch) <> Running).
Proof.
  split; intros (op & fuel & H); apply H.
  - rewrite wait_for_eq. simpl Z.ltb. cbv iota.
    rewrite always_pending_running. reflexivity.
  - rewrite wait_wrapped_polling, always_pending_running. reflexivity.
Qed.

(** C2 (amended).  A waiter returns normally only when the answer to its
    last query shows the target state.  When the remote answers every
    query with a status and the timeout is above 0, the call ends, in one
    way: with fuel for the turns that fit before the deadline, and with any
    more, it gives one and the same outcome, which is a normal return, the
    timeout error, or the error built for an [error] state. *)
Theorem wait_ends_once (op : operation)
    (reraised : string -> PyException -> PyException)
    (self : Sandbox) (timeout : Z) (w : world) :
  (forall fuel w',
     wait_for op reraised self timeout fuel w = (Return tt, w') ->
     (queries (log w) < queries (log w'))%nat
     /\ exists response,
          answer (get_workspace_reply (sandbox_api self) (queries (log w') - 1))
          = inr response
          /\ state response = target_state op)
  /\ ((forall k, exists response,
         answer (get_workspace_reply (sandbox_api self) k) = inr response) ->
      (0 < timeout)%Z ->
      exists r w',
        (forall fuel, (Z.to_nat (timeout * 10) < fuel)%nat ->
           wait_for op reraised self timeout fuel w = (r, w'))
        /\ (r = Return tt
            \/ r = Raise (reraised (message_prefix op)
                            (DaytonaError (timeout_message op self timeout)))
            \/ exists response,
                 state response = "error"
                 /\ r = Raise (reraised (message_prefix op)
                                 (DaytonaError (error_state_message op self response))))).
Proof.
  split.
  - intros fuel w'. rewrite wait_for_eq.
    destruct (timeout <? 0)%Z; [discriminate|].
    destruct (polling _ _ _ _) as [r1 w1] eqn:E1.
    destruct (_ && _); [discriminate|].
    destruct r1 as [[]|e|]; try discriminate. intros [= <-].
    destruct (polling_inv _ _ _ _ _ _ E1) as (n & _ & _ & _ & Hd & ->).
    apply turn_done in Hd. destruct Hd as (response & Hans & Hst).
    change (queries (log (polled self (polls self n w))))
      with (S (queries (log (polls self n w)))).
    rewrite queries_polls. split; [lia|].
    exists response. split; [|exact Hst].
    replace (S (queries (log w) + n) - 1)%nat with (queries (log w) + n)%nat
      by lia.
    exact Hans.
  - intros Hstatus Hpos.
    destruct (wait_for op reraised self timeout (S (Z.to_nat (timeout * 10))) w)
      as [r w'] eqn:E.
    pose proof (wait_for_finishes op reraised self timeout w Hpos) as Hfin.
    rewrite E in Hfin. simpl in Hfin.
    exists r, w'. split.
    + intros fuel Hfuel. eapply wait_for_more_fuel; [exact E | exact Hfin | lia].
    + rewrite wait_for_eq in E.
      destruct (timeout <? 0)%Z eqn:Hneg; [apply Z.ltb_lt in Hneg; lia|].
      destruct (polling _ _ _ _) as [r1 w1] eqn:E1.
      destruct (_ && _); [inversion E; subst; right; left; reflexivity|].
      inversion E; subst. destruct r1 as [[]|e|].
      * left. reflexivity.
      * right. right.
        destruct (polling_inv _ _ _ _ _ _ E1) as (n & _ & _ & _ & Hf & _).
        destruct (Hstatus (queries (log w) + n)%nat) as (response & Hans).
        destruct (turn_failed_on_status _ _ _ _ _ Hans Hf) as [Herr ->].
        exists response. split; [exact Herr | reflexivity].
      * congruence.
Qed.

Lemma wait_ends_once_witness :
  exists r w',
    (forall fuel, (Z.to_nat (1 * 10) < fuel)%nat ->
       wait_for Start prefixed sandbox_starting 1 fuel epoch = (r, w'))
    /\ (r = Return tt
        \/ r = Raise (prefixed (message_prefix Start)
                        (DaytonaError (timeout_message Start sandbox_starting 1)))
        \/ exists response,
             state response = "error"
             /\ r = Raise (prefixed (message_prefix Start)
                             (DaytonaError
                                (error_state_message Start sandbox_starting response)))).
Proof.
  apply (proj2 (wait_ends_once Start prefixed sandbox_starting 1 epoch)).
  - intros [|[|[|k]]]; eexists; reflexivity.
  - lia.
Defined.

(** ** The target state on the first query *)

(** C3, against the claim as stated: when the first query already shows
    the target state, each waiter still sleeps once before it returns. *)
Lemma target_at_once_sleeps :
  let start := wait_for_sandbox_start_wrapped sandbox_started 60 1 epoch in
  let stop := wait_for_sandbox_stop_wrapped sandbox_stopped 60 1 epoch in
  (fst start = Return tt
   /\ queries (log (snd start)) = 1%nat
   /\ sleeps (log (snd start)) <> 0%nat
   /\ log (snd start)
      = [ {| issued_at := 5; action := Sleep 100 |};
          {| issued_at := 0; action := GetWorkspace "sb-1" |} ])
  /\ (fst stop = Return tt
      /\ queries (log (snd stop)) = 1%nat
      /\ sleeps (log (snd stop)) <> 0%nat
      /\ log (snd stop)
         = [ {| issued_at := 5; action := Sleep 100 |};
             {| issued_at := 0; action := GetWorkspace "sb-1" |} ]).
Proof. vm_compute. repeat split; (reflexivity || discriminate). Qed.

(** C3 (amended).  When the first query already shows the target state,
    the waiter's loop returns normally after that one query and one sleep
    of 100 ms: the sleep closes every turn that did not raise, the last
    one too. *)
Theorem target_at_once (op : operation) (self : Sandbox) (timeout : Z)
    (fuel : nat) (w : world) (response : ApiSandbox) :
  answer (get_workspace_reply (sandbox_api self) (queries (log w))) = inr response ->
  state response = target_state op ->
  (0 < fuel)%nat ->
  wait_wrapped op self timeout fuel w = (Return tt, polled self w)
  /\ queries (log (polled self w)) = S (queries (log w))
  /\ sleeps (log (polled self w)) = S (sleeps (log w))
  /\ log (polled self w)
     = {| issued_at := clock (queried self w); action := Sleep 100 |}
       :: {| issued_at := clock w; action := GetWorkspace (id self) |}
       :: log w.
Proof.
  intros Hans Htgt Hfuel. split; [|repeat split].
  rewrite wait_wrapped_polling.
  destruct fuel as [|fuel]; [lia|]. simpl.
  rewrite (turn_done_on_target _ _ _ _ Hans Htgt). reflexivity.
Qed.

Lemma target_at_once_witness :
  wait_wrapped Stop sandbox_stopped 60 3 epoch
  = (Return tt, polled sandbox_stopped epoch)
  /\ queries (log (polled sandbox_stopped epoch)) = 1%nat
  /\ sleeps (log (polled sandbox_stopped epoch)) = 1%nat
  /\ log (polled sandbox_stopped epoch)
     = [ {| issued_at := 5; action := Sleep 100 |};
         {| issued_at := 0; action := GetWorkspace "sb-1" |} ].
Proof.
  apply (target_at_once Stop sandbox_stopped 60 3 epoch
           {| state := "stopped"; error_reason := None |}).
  - reflexivity.
  - reflexivity.
  - lia.
Defined.

(** ** Queries that raise *)

(** C4.  On the stop path, queries that raise with "validation error" in
    their text on attempts 1..n, followed by [stopped] on attempt n+1, give
    a normal return after n+1 queries.  More generally, on the stop path a
    query that raises with "validation error" in its text is swallowed on
    whatever attempt it comes, whatever was seen before: the loop sleeps,
    is still going, and from there on does what a wait begun in that world
    does.  On the stop path a query that raises without "validation error"
    in its text, and on the start path any query that raises, ends the
    wait on that attempt with the very exception the query raised, and
    without a further sleep. *)
Theorem query_exceptions (self : Sandbox) (timeout : Z) (n fuel : nat) (w : world) :
  (n < fuel)%nat ->
  ((forall i, (i < n)%nat ->
      exists e,
        answer (get_workspace_reply (sandbox_api self) (queries (log w) + i)) = inl e
        /\ contains "validation error" (exc_str e) = true) ->
   (exists response,
      answer (get_workspace_reply (sandbox_api self) (queries (log w) + n))
      = inr response
      /\ state response = "stopped") ->
   wait_for_sandbox_stop_wrapped self timeout fuel w
   = (Return tt, polled self (polls self n w))
   /\ queries (log (polled self (polls self n w))) = (queries (log w) + n + 1)%nat)
  /\ (forall wn e,
        wait_for_sandbox_stop_wrapped self timeout n w = (Running, wn) ->
        answer (get_workspace_reply (sandbox_api self) (queries (log wn))) = inl e ->
        contains "validation error" (exc_str e) = true ->
        wait_for_sandbox_stop_wrapped self timeout (S n) w = (Running, polled self wn)
        /\ forall m,
             wait_for_sandbox_stop_wrapped self timeout (S n + m) w
             = wait_for_sandbox_stop_wrapped self timeout m (polled self wn))
  /\ (forall wn e,
        wait_for_sandbox_stop_wrapped self timeout n w = (Running, wn) ->
        answer (get_workspace_reply (sandbox_api self) (queries (log wn))) = inl e ->
        contains "validation error" (exc_str e) = false ->
        wait_for_sandbox_stop_wrapped self timeout fuel w = (Raise e, queried self wn))
  /\ (forall wn e,
        wait_for_sandbox_start_wrapped self timeout n w = (Running, wn) ->
        answer (get_workspace_reply (sandbox_api self) (queries (log wn))) = inl e ->
        wait_for_sandbox_start_wrapped self timeout fuel w = (Raise e, queried self wn)).
Proof.
  intros Hfuel. split; [|split; [|split]].
  - intros Hpre (response & Hans & Hst). split.
    + rewrite stop_wrapped_polling.
      replace fuel with (n + S (fuel - S n))%nat by lia.
      rewrite polling_again_prefix.
      * simpl. rewrite queries_polls.
        rewrite (turn_done_on_target Stop _ _ _ Hans Hst). reflexivity.
      * intros i Hi. destruct (Hpre i Hi) as (e & He & Hc).
        unfold stop_verdict. rewrite He, Hc. reflexivity.
    + change (queries (log (polled self (polls self n w))))
        with (S (queries (log (polls self n w)))).
      rewrite queries_polls. lia.
  - intros wn e Hrun Hans Hc.
    assert (Hgo : forall m,
      wait_for_sandbox_stop_wrapped self timeout (S n + m) w
      = wait_for_sandbox_stop_wrapped self timeout m (polled self wn)).
    { intros m. rewrite !stop_wrapped_polling in *.
      replace (S n + m)%nat with (n + S m)%nat by lia.
      rewrite (polling_resume _ _ _ _ _ _ Hrun). simpl.
      unfold stop_verdict. rewrite Hans, Hc. reflexivity. }
    split; [|exact Hgo].
    specialize (Hgo 0%nat). rewrite Nat.add_0_r in Hgo. rewrite Hgo.
    rewrite stop_wrapped_polling. reflexivity.
  - intros wn e Hrun Hans Hc. rewrite stop_wrapped_polling in *.
    replace fuel with (n + S (fuel - S n))%nat by lia.
    rewrite (polling_resume _ _ _ _ _ _ Hrun). simpl.
    unfold stop_verdict. rewrite Hans, Hc. reflexivity.
  - intros wn e Hrun Hans. rewrite start_wrapped_polling in *.
    replace fuel with (n + S (fuel - S n))%nat by lia.
    rewrite (polling_resume _ _ _ _ _ _ Hrun). simpl.
    unfold start_verdict. rewrite Hans. reflexivity.
Qed.

Lemma query_exceptions_witness :
  (wait_for_sandbox_stop_wrapped sandbox_flaky_stop 60 6 epoch
   = (Return tt, polled sandbox_flaky_stop (polls sandbox_flaky_stop 5 epoch))
   /\ queries (log (polled sandbox_flaky_stop (polls sandbox_flaky_stop 5 epoch)))
      = 6%nat)
  /\ (wait_for_sandbox_stop_wrapped sandbox_hiccup_stop 60 2 epoch
      = (Running, polled sandbox_hiccup_stop (polled sandbox_hiccup_stop epoch))
      /\ forall m,
           wait_for_sandbox_stop_wrapped sandbox_hiccup_stop 60 (2 + m) epoch
           = wait_for_sandbox_stop_wrapped sandbox_hiccup_stop 60 m
               (polled sandbox_hiccup_stop (polled sandbox_hiccup_stop epoch)))
  /\ wait_for_sandbox_stop_wrapped sandbox_unreachable 60 2 epoch
     = (Raise {| exc_class := "ApiException"; exc_str := "(503) Service Unavailable" |},
        queried sandbox_unreachable (polled sandbox_unreachable epoch))
  /\ wait_for_sandbox_start_wrapped sandbox_unreachable 60 2 epoch
     = (Raise {| exc_class := "ApiException"; exc_str := "(503) Service Unavailable" |},
        queried sandbox_unreachable (polled sandbox_unreachable epoch)).
Proof.
  split; [|split; [|split]].
  - apply (proj1 (query_exceptions sandbox_flaky_stop 60 5 6 epoch ltac:(lia))).
    + intros i Hi.
      exists {| exc_class := "ValidationError";
                exc_str := "1 validation error for Workspace" |}.
      do 5 (destruct i as [|i]; [split; reflexivity|]). lia.
    + exists {| state := "stopped"; error_reason := None |}.
      split; reflexivity.
  - apply (proj1 (proj2 (query_exceptions sandbox_hiccup_stop 60 1 2 epoch
                           ltac:(lia)))
             (polled sandbox_hiccup_stop epoch)
             {| exc_class := "ValidationError";
                exc_str := "1 validation error for Workspace" |}).
    + reflexivity.
    + reflexivity.
    + reflexivity.
  - apply (proj1 (proj2 (proj2 (query_exceptions sandbox_unreachable 60 1 2 epoch
                                  ltac:(lia))))).
    + reflexivity.
    + reflexivity.
    + reflexivity.
  - apply (proj2 (proj2 (proj2 (query_exceptions sandbox_unreachable 60 1 2 epoch
                                  ltac:(lia))))).
    + reflexivity.
    + reflexivity.
Defined.

(** ** Timeouts *)

(** C5.  Called with timeout 0, a waiter that is answered n times with a
    state that is neither its target nor [error], and then with its
    target, returns normally after the (n+1)-th query: no deadline
    applies, however long the answers took. *)
Theorem timeout_zero_no_deadline (op : operation)
    (reraised : string -> PyException -> PyException)
    (self : Sandbox) (n fuel : nat) (w : world) :
  (forall i, (i < n)%nat ->
     exists response,
       answer (get_workspace_reply (sandbox_api self) (queries (log w) + i))
       = inr response
       /\ state response <> target_state op
       /\ state response <> "error") ->
  (exists response,
     answer (get_workspace_reply (sandbox_api self) (queries (log w) + n))
     = inr response
     /\ state response = target_state op) ->
  (n < fuel)%nat ->
  wait_for op reraised self 0 fuel w = (Return tt, polled self (polls self n w))
  /\ queries (log (polled self (polls self n w))) = (queries (log w) + (n + 1))%nat.
Proof.
  intros Hpre (response & Hans & Htgt) Hfuel. split.
  - rewrite wait_for_eq. simpl Z.ltb. cbv iota.
    replace fuel with (n + S (fuel - S n))%nat by lia.
    rewrite polling_again_prefix.
    + simpl. rewrite queries_polls.
      rewrite (turn_done_on_target _ _ _ _ Hans Htgt). reflexivity.
    + intros i Hi. destruct (Hpre i Hi) as (ri & Hi1 & Hi2 & Hi3).
      eapply turn_again_on_status; eassumption.
  - change (queries (log (polled self (polls self n w))))
      with (S (queries (log (polls self n w)))).
    rewrite queries_polls. lia.
Qed.

Lemma timeout_zero_no_deadline_witness :
  wait_for Start prefixed sandbox_slow_start 0 51 epoch
  = (Return tt, polled sandbox_slow_start (polls sandbox_slow_start 50 epoch))
  /\ queries (log (polled sandbox_slow_start (polls sandbox_slow_start 50 epoch)))
     = 51%nat.
Proof.
  apply (timeout_zero_no_deadline Start prefixed sandbox_slow_start 50 51 epoch).
  - intros i Hi. exists {| state := "pending"; error_reason := None |}.
    split; [|split; discriminate].
    do 50 (destruct i as [|i]; [reflexivity|]). lia.
  - exists {| state := "started"; error_reason := None |}. split; reflexivity.
  - lia.
Defined.

(** C6.  A negative timeout is refused before anything is asked of the
    remote: the call raises and leaves the world, and so the count of
    status queries, as it found it. *)
Theorem negative_timeout_rejected (op : operation)
    (reraised : string -> PyException -> PyException)
    (self : Sandbox) (timeout : Z) (fuel : nat) (w : world) :
  (timeout < 0)%Z ->
  wait_for op reraised self timeout fuel w
  = (Raise (reraised (message_prefix op) (DaytonaError invalid_timeout_message)), w)
  /\ queries (log (snd (wait_for op reraised self timeout fuel w)))
     = queries (log w).
Proof.
  intros Hneg. rewrite wait_for_eq.
  replace (timeout <? 0)%Z with true by (symmetry; apply Z.ltb_lt; exact Hneg).
  split; reflexivity.
Qed.

Lemma negative_timeout_rejected_witness :
  wait_for Stop prefixed sandbox_stopped (-1) 5 epoch
  = (Raise (prefixed (message_prefix Stop) (DaytonaError invalid_timeout_message)),
     epoch)
  /\ queries (log (snd (wait_for Stop prefixed sandbox_stopped (-1) 5 epoch)))
     = queries (log epoch).
Proof.
  apply (negative_timeout_rejected Stop prefixed sandbox_stopped (-1) 5 epoch).
  lia.
Defined.

(** C7, against the claim as stated: the timeout error of the start path
    gives the id and the timeout, and says "ready"; the target state,
    "started", is not in it, with or without the prefix of the outer
    decorator. *)
Lemma start_timeout_message_lacks_target :
  fst (with_timeout start_timeout_message wait_for_sandbox_start_wrapped
         sandbox_always_pending 1 11 epoch)
  = Raise (DaytonaError
      "Sandbox sb-1 failed to become ready within the 1 seconds timeout period")
  /\ contains (target_state Start)
       "Sandbox sb-1 failed to become ready within the 1 seconds timeout period"
     = false
  /\ fst (wait_for_sandbox_start prefixed sandbox_always_pending 1 11 epoch)
     = Raise (DaytonaError
         "Failure during waiting for sandbox to start: Sandbox sb-1 failed to become ready within the 1 seconds timeout period")
  /\ contains (target_state Start)
       "Failure during waiting for sandbox to start: Sandbox sb-1 failed to become ready within the 1 seconds timeout period"
     = false.
Proof. vm_compute. repeat split; reflexivity. Qed.

(** C7 (amended).  With a timeout above 0, when the deadline has passed
    before the waiter's loop has finished, the wait fails with the timeout
    error, and does so with any more fuel.  Its message contains the id of
    the sandbox and the timeout; on the stop path it contains the target
    state "stopped", on the start path the word "ready". *)
Theorem timeout_error_message (op : operation)
    (reraised : string -> PyException -> PyException)
    (self : Sandbox) (timeout : Z) (fuel : nat) (w : world)
    (r : outcome unit) (w' : world) :
  (0 < timeout)%Z ->
  wait_wrapped op self timeout fuel w = (r, w') ->
  (deadline timeout w < clock w')%N ->
  (forall more, (fuel <= more)%nat ->
     wait_for op reraised self timeout more w
     = (Raise (reraised (message_prefix op)
                 (DaytonaError (timeout_message op self timeout))),
        cut_at (deadline timeout w) w'))
  /\ contains (id self) (timeout_message op self timeout) = true
  /\ contains (pretty timeout) (timeout_message op self timeout) = true
  /\ contains (match op with Start => "ready" | Stop => target_state Stop end)
       (timeout_message op self timeout) = true.
Proof.
  intros Hpos Hrun Hlate. split; [|split; [|split]].
  - intros more Hmore.
    apply (wait_for_more_fuel op reraised self timeout fuel more);
      [|discriminate|exact Hmore].
    rewrite wait_for_eq. rewrite wait_wrapped_polling in Hrun. rewrite Hrun.
    destruct (Z.ltb_spec timeout 0); [lia|].
    replace (0 <? timeout)%Z with true by (symmetry; apply Z.ltb_lt; lia).
    replace (deadline timeout w <? clock w')%N with true
      by (symmetry; apply N.ltb_lt; exact Hlate).
    reflexivity.
  - destruct op; apply contains_spliced.
  - destruct op;
      unfold timeout_message, start_timeout_message, stop_timeout_message;
      do 3 apply contains_skip; apply contains_here.
  - destruct op;
      unfold timeout_message, start_timeout_message, stop_timeout_message,
        target_state;
      do 2 apply contains_skip.
    + apply (contains_spliced "ready" " failed to become " " within the ").
    + apply (contains_spliced "stopped" " failed to become " " within the ").
Qed.

Lemma timeout_error_message_witness :
  (forall more, (11 <= more)%nat ->
     wait_for Stop prefixed sandbox_always_pending 1 more epoch
     = (Raise (prefixed (message_prefix Stop)
                 (DaytonaError (timeout_message Stop sandbox_always_pending 1))),
        cut_at (deadline 1 epoch) (polls sandbox_always_pending 11 epoch)))
  /\ contains (id sandbox_always_pending)
       (timeout_message Stop sandbox_always_pending 1) = true
  /\ contains (pretty 1%Z) (timeout_message Stop sandbox_always_pending 1) = true
  /\ contains (target_state Stop) (timeout_message Stop sandbox_always_pending 1)
     = true.
Proof.
  apply (timeout_error_message Stop prefixed sandbox_always_pending 1 11 epoch
           Running (polls sandbox_always_pending 11 epoch)).
  - lia.
  - vm_compute. reflexivity.
  - vm_compute. reflexivity.
Defined.

(** ** The deprecated names *)

Lemma filter_query_io (l : list event) :
  List.filter is_query (List.filter is_io l) = List.filter is_query l.
Proof.
  induction l as [|e l IH]; simpl; [reflexivity|].
  unfold is_io at 1. destruct (is_query e) eqn:Eq; simpl.
  - rewrite Eq, IH. reflexivity.
  - destruct (is_sleep e); simpl; [rewrite Eq|]; exact IH.
Qed.

Lemma filter_swap {A} (p q : A -> bool) (l : list A) :
  List.filter p (List.filter q l) = List.filter q (List.filter p l).
Proof.
  induction l as [|x l IH]; simpl; [reflexivity|].
  destruct (q x) eqn:Eq, (p x) eqn:Ep; simpl; rewrite ?Eq, ?Ep, IH; reflexivity.
Qed.

Lemma same_io_queries (w1 w2 : world) :
  same_io w1 w2 -> queries (log w1) = queries (log w2).
Proof.
  intros [_ H]. unfold queries.
  rewrite <- (filter_query_io (log w1)), <- (filter_query_io (log w2)), H.
  reflexivity.
Qed.

Lemma same_io_queried (self : Sandbox) (w1 w2 : world) :
  same_io w1 w2 -> same_io (queried self w1) (queried self w2).
Proof.
  intros H. pose proof (same_io_queries _ _ H) as Hq. destruct H as [Hc Hl].
  unfold same_io, queried. cbn [clock log]. rewrite Hq, Hc.
  split; [reflexivity|].
  cbn [List.filter]. rewrite Hl. reflexivity.
Qed.

Lemma same_io_slept (w1 w2 : world) :
  same_io w1 w2 -> same_io (slept w1) (slept w2).
Proof.
  intros [Hc Hl]. unfold same_io, slept. cbn [clock log]. rewrite Hc.
  split; [reflexivity|].
  cbn [List.filter]. rewrite Hl. reflexivity.
Qed.

Lemma same_io_cut (d : N) (w1 w2 : world) :
  same_io w1 w2 -> same_io (cut_at d w1) (cut_at d w2).
Proof.
  intros [Hc Hl]. split; simpl; [reflexivity|].
  rewrite !(filter_swap is_io), Hl. reflexivity.
Qed.

(** The loop does the same from two worlds that differ in neither clock
    nor queries nor sleeps. *)
Lemma same_io_polling (turn : reply ApiSandbox -> verdict) (self : Sandbox)
    (fuel : nat) :
  forall w1 w2, same_io w1 w2 ->
  fst (polling turn self fuel w1) = fst (polling turn self fuel w2)
  /\ same_io (snd (polling turn self fuel w1)) (snd (polling turn self fuel w2)).
Proof.
  induction fuel as [|fuel IH]; intros w1 w2 H; simpl.
  - split; [reflexivity | exact H].
  - rewrite (same_io_queries _ _ H).
    destruct (turn _); simpl.
    + split; [reflexivity|]. apply same_io_slept, same_io_queried, H.
    + split; [reflexivity|]. apply same_io_queried, H.
    + apply IH. apply same_io_slept, same_io_queried, H.
Qed.

(** C8.  Each deprecated waiter does what the current one does: for every
    timeout, remote and amount of fuel, the same outcome (the same return
    or the same exception), at the same time, after the same sequence of
    status queries and sleeps.  What it adds is the deprecation warning. *)
Theorem legacy_wait_is_alias (op : operation)
    (reraised : string -> PyException -> PyException)
    (self : Sandbox) (timeout : Z) (fuel : nat) (w : world) :
  fst (legacy_wait_for op reraised self timeout fuel w)
  = fst (wait_for op reraised self timeout fuel w)
  /\ clock (snd (legacy_wait_for op reraised self timeout fuel w))
     = clock (snd (wait_for op reraised self timeout fuel w))
  /\ List.filter is_io (log (snd (legacy_wait_for op reraised self timeout fuel w)))
     = List.filter is_io (log (snd (wait_for op reraised self timeout fuel w))).
Proof.
  assert (Hleg : exists reason,
    legacy_wait_for op reraised self timeout fuel w
    = wait_for op reraised self timeout fuel
        {| clock := clock w;
           log := {| issued_at := clock w;
                     action := Warn "DeprecationWarning" reason |} :: log w |}).
  { destruct op; eexists; reflexivity. }
  destruct Hleg as (reason & ->).
  set (ww := {| clock := clock w; log := _ :: log w |}).
  assert (Hww : same_io ww w) by (split; reflexivity).
  rewrite !wait_for_eq.
  destruct (timeout <? 0)%Z; [destruct Hww; repeat split; assumption|].
  destruct (same_io_polling (turn_of op self) self fuel ww w Hww) as [Hr Hw].
  destruct (polling _ _ _ ww) as [r1 w1]. destruct (polling _ _ _ w) as [r2 w2].
  simpl in Hr, Hw. subst r2.
  replace (deadline timeout ww) with (deadline timeout w) by reflexivity.
  destruct Hw as [Hc Hl]. rewrite Hc.
  destruct (_ && _); simpl.
  - repeat split. rewrite !(filter_swap is_io), Hl. reflexivity.
  - repeat split; assumption.
Qed.

(** * The setters *)

(** C9.  [set_autostop_interval] fails fast and all at once.  An argument
    that is not an [int], or that is negative, raises the [DaytonaError]
    of the check: nothing is sent and [self] is as before.  A non-negative
    [int] is sent, and once the API call has returned,
    [instance.auto_stop_interval] is that very argument; when the API call
    raises, [self] is as before. *)
Theorem set_autostop_interval_fail_fast
    (reraised : string -> PyException -> PyException)
    (interval : PyValue) (self : Sandbox) (w : world) :
  let sent :=
    {| clock := (clock w
                 + took (set_autostop_interval_reply (sandbox_api self) (id self)
                           interval))%N;
       log := {| issued_at := clock w;
                 action := SetAutostopInterval (id self) interval |} :: log w |} in
  ((isinstance_int interval = false \/ (int_value interval < 0)%Z) ->
     set_autostop_interval_wrapped interval (self, w)
     = (Raise (DaytonaError "Auto-stop interval must be a non-negative integer"),
        (self, w))
     /\ set_autostop_interval reraised interval (self, w)
        = (Raise (reraised "Failed to set auto-stop interval: "
                    (DaytonaError "Auto-stop interval must be a non-negative integer")),
           (self, w)))
  /\ (isinstance_int interval = true -> (0 <= int_value interval)%Z ->
      (answer (set_autostop_interval_reply (sandbox_api self) (id self) interval)
       = inr tt ->
       set_autostop_interval reraised interval (self, w)
       = (Return tt,
          ({| id := id self;
              instance := {| auto_stop_interval := interval |};
              sandbox_api := sandbox_api self |},
           sent)))
      /\ (forall e,
            answer (set_autostop_interval_reply (sandbox_api self) (id self) interval)
            = inl e ->
            set_autostop_interval reraised interval (self, w)
            = (Raise (reraised "Failed to set auto-stop interval: " e),
               (self, sent)))).
Proof.
  intros sent. split.
  - intros Hbad.
    assert (Hcheck : (if negb (isinstance_int interval) then true
                      else (int_value interval <? 0)%Z) = true).
    { destruct Hbad as [Hty|Hneg].
      - rewrite Hty. reflexivity.
      - destruct (negb _); [reflexivity|]. now apply Z.ltb_lt. }
    unfold set_autostop_interval, intercept_errors, set_autostop_interval_wrapped,
      bind. rewrite Hcheck. split; reflexivity.
  - intros Hty Hnonneg.
    assert (Hcheck : (if negb (isinstance_int interval) then true
                      else (int_value interval <? 0)%Z) = false).
    { rewrite Hty. simpl. apply Z.ltb_ge. exact Hnonneg. }
    unfold set_autostop_interval, intercept_errors, set_autostop_interval_wrapped,
      bind, lift, api_set_autostop_interval, receive, bind, emit, elapse,
      assign_auto_stop_interval.
    rewrite Hcheck. cbn [ret fst snd].
    split.
    + intros ->. reflexivity.
    + intros e ->. reflexivity.
Qed.

Lemma set_autostop_interval_fail_fast_witness :
  (set_autostop_interval_wrapped (PyInt (-5)) (sandbox_started, epoch)
   = (Raise (DaytonaError "Auto-stop interval must be a non-negative integer"),
      (sandbox_started, epoch))
   /\ set_autostop_interval prefixed (PyObject "float" "1.5") (sandbox_started, epoch)
      = (Raise (prefixed "Failed to set auto-stop interval: "
                  (DaytonaError "Auto-stop interval must be a non-negative integer")),
         (sandbox_started, epoch)))
  /\ auto_stop_interval
       (instance (fst (snd (set_autostop_interval prefixed (PyInt 60)
                              (sandbox_started, epoch)))))
     = PyInt 60.
Proof.
  split; [split|].
  - apply (proj1 (set_autostop_interval_fail_fast prefixed (PyInt (-5))
                    sandbox_started epoch)).
    right. simpl. lia.
  - apply (proj1 (set_autostop_interval_fail_fast prefixed (PyObject "float" "1.5")
                    sandbox_started epoch)).
    left. reflexivity.
  - rewrite (proj1 (proj2 (set_autostop_interval_fail_fast prefixed (PyInt 60)
                             sandbox_started epoch)
                      ltac:(reflexivity) ltac:(simpl; lia)) ltac:(reflexivity)).
    reflexivity.
Defined.

(** C10.  [set_labels] sends exactly [{"labels": string_labels}], where
    [string_labels] has the keys of the argument and, for each key, the
    text of its value: "true" or "false" for a boolean, and [str(v)] for
    any other value [v]. *)
Theorem set_labels_payload (reraised : string -> PyException -> PyException)
    (self : Sandbox) (labels : gmap string PyValue) (w : world) :
  exists string_labels : gmap string string,
    log (snd (set_labels reraised self labels w))
    = {| issued_at := clock w;
         action := ReplaceLabels (id self) {[ "labels" := string_labels ]} |}
      :: log w
    /\ dom string_labels = dom labels
    /\ (forall k, labels !! k = None -> string_labels !! k = None)
    /\ (forall k b, labels !! k = Some (PyBool b) ->
          string_labels !! k = Some (if b then "true" else "false"))
    /\ (forall k v, labels !! k = Some v -> isinstance_bool v = false ->
          string_labels !! k = Some (str v)).
Proof.
  exists (label_text <$> labels). split; [|split; [|split; [|split]]].
  - unfold set_labels, intercept_errors, set_labels_wrapped, api_replace_labels,
      receive, bind, emit, elapse. cbn [ret raise].
    destruct (answer _); reflexivity.
  - apply dom_fmap_L.
  - intros k Hk. rewrite lookup_fmap, Hk. reflexivity.
  - intros k b Hk. rewrite lookup_fmap, Hk. destruct b; reflexivity.
  - intros k v Hk Hv. rewrite lookup_fmap, Hk.
    change (Some (label_text v) = Some (str v)).
    unfold label_text. rewrite Hv. reflexivity.
Qed.

Lemma set_labels_payload_witness :
  exists string_labels : gmap string string,
    log (snd (set_labels prefixed sandbox_started sample_labels epoch))
    = [ {| issued_at := 0;
           action := ReplaceLabels "sb-1" {[ "labels" := string_labels ]} |} ]
    /\ string_labels !! "debug" = Some "true"
    /\ string_labels !! "replicas" = Some "3"
    /\ string_labels !! "team" = Some "backend"
    /\ string_labels !! "owner" = None.
Proof.
  destruct (set_labels_payload prefixed sandbox_started sample_labels epoch)
    as (string_labels & Hlog & _ & Hnone & Hbool & Hother).
  exists string_labels. split; [exact Hlog|]. split; [|split; [|split]].
  - apply (Hbool "debug" true). vm_compute. reflexivity.
  - apply (Hother "replicas" (PyInt 3)); vm_compute; reflexivity.
  - apply (Hother "team" (PyStr "backend")); vm_compute; reflexivity.
  - apply Hnone. vm_compute. reflexivity.
Defined.

(** * More on the waiters *)

(** ** Pace and reach of the loops *)

Lemma polls_only_polls (self : Sandbox) (n : nat) :
  forall w, exists new,
    log (polls self n w) = (new ++ log w)%list
    /\ forallb (polls_only self) new = true.
Proof.
  induction n as [|n IH]; intros w; simpl polls.
  - exists []. split; reflexivity.
  - destruct (IH (polled self w)) as (new & E & F).
    exists (new ++ [ {| issued_at := clock (queried self w); action := Sleep 100 |};
                     {| issued_at := clock w; action := GetWorkspace (id self) |} ])%list.
    split.
    + rewrite E, <- app_assoc. reflexivity.
    + rewrite forallb_app, F. unfold polls_only. simpl.
      rewrite String.eqb_refl. reflexivity.
Qed.

Lemma paced_polls (self : Sandbox) (n : nat) (w : world) :
  exists new,
    log (polls self n w) = (new ++ log w)%list
    /\ paced new = true
    /\ match new with
       | [] => True
       | a :: _ =>
           action a = Sleep 100
           /\ (issued_at a + 100 <= clock (polls self n w))%N
       end.
Proof.
  induction n as [|n IH].
  - exists []. repeat split.
  - rewrite polls_succ. destruct IH as (new & E & P & Hhead).
    set (W := polls self n w) in *.
    exists ({| issued_at := clock (queried self W); action := Sleep 100 |}
            :: {| issued_at := clock W; action := GetWorkspace (id self) |}
            :: new).
    split; [|split].
    + simpl. rewrite E. reflexivity.
    + cbn [paced]. apply andb_true_iff. split.
      * unfold follows. simpl. apply N.leb_le. lia.
      * destruct new as [|b new']; [reflexivity|].
        apply andb_true_iff. split; [|exact P].
        destruct Hhead as [Hb Ht]. unfold follows. rewrite Hb. simpl.
        apply N.leb_le. exact Ht.
    + simpl. split; [reflexivity | lia].
Qed.

(** X1.  A waiter's loop never asks twice without sleeping in between.
    What a run adds to the log begins with a query, and from there on
    queries and sleeps take turns: after each query that did not raise, a
    sleep of 100 ms, and the next query only once that sleep is over, so
    at least 100 ms after the one before.  However the run stands
    (returned, raised, or still going when the fuel is spent), a return
    comes after as many sleeps as queries, and at least one of each; a
    raise comes on a query that no sleep follows; and the clock has
    advanced by at least 100 ms per sleep. *)
Theorem waiter_paces_queries (op : operation) (self : Sandbox) (timeout : Z)
    (fuel : nat) (w : world) (r : outcome unit) (w' : world) :
  wait_wrapped op self timeout fuel w = (r, w') ->
  (exists new, log w' = (new ++ log w)%list /\ paced new = true)
  /\ exists n,
       sleeps (log w') = (sleeps (log w) + n)%nat
       /\ (clock w + 100 * N.of_nat n <= clock w')%N
       /\ match r with
          | Return _ => (1 <= n)%nat /\ queries (log w') = (queries (log w) + n)%nat
          | Raise _ => queries (log w') = (queries (log w) + n + 1)%nat
          | Running => n = fuel /\ queries (log w') = (queries (log w) + n)%nat
          end.
Proof.
  rewrite wait_wrapped_polling. intros H.
  destruct (polling_inv _ _ _ _ _ _ H) as (n & _ & _ & Hr).
  split.
  - destruct r as [[]|e|].
    + destruct Hr as (_ & _ & ->). rewrite <- polls_succ.
      destruct (paced_polls self (S n) w) as (new & E & P & _).
      exists new. split; assumption.
    + destruct Hr as (_ & _ & ->).
      destruct (paced_polls self n w) as (new & E & P & Hhead).
      exists ({| issued_at := clock (polls self n w);
                 action := GetWorkspace (id self) |} :: new).
      split; [simpl; rewrite E; reflexivity|].
      destruct new as [|b new']; [reflexivity|].
      cbn [paced]. apply andb_true_iff. split; [|exact P].
      destruct Hhead as [Hb Ht]. unfold follows. rewrite Hb. simpl.
      apply N.leb_le. exact Ht.
    + destruct Hr as (_ & ->).
      destruct (paced_polls self n w) as (new & E & P & _).
      exists new. split; assumption.
  - destruct r as [[]|e|].
    + destruct Hr as (_ & _ & ->). exists (S n).
      rewrite <- polls_succ, sleeps_polls, queries_polls.
      repeat split; try lia. apply clock_polls.
    + destruct Hr as (_ & _ & ->). exists n.
      change (sleeps (log (queried self (polls self n w))))
        with (sleeps (log (polls self n w))).
      change (queries (log (queried self (polls self n w))))
        with (S (queries (log (polls self n w)))).
      rewrite sleeps_polls, queries_polls.
      repeat split; try lia.
      pose proof (clock_polls self n w). simpl. lia.
    + destruct Hr as (-> & ->). exists fuel.
      rewrite sleeps_polls, queries_polls.
      repeat split. apply clock_polls.
Qed.

Lemma waiter_paces_queries_witness :
  (exists new,
     log (polled sandbox_starting (polls sandbox_starting 2 epoch))
     = (new ++ log epoch)%list
     /\ paced new = true)
  /\ exists n,
       sleeps (log (polled sandbox_starting (polls sandbox_starting 2 epoch)))
       = (sleeps (log epoch) + n)%nat
       /\ (clock epoch + 100 * N.of_nat n
           <= clock (polled sandbox_starting (polls sandbox_starting 2 epoch)))%N
       /\ (1 <= n)%nat
       /\ queries (log (polled sandbox_starting (polls sandbox_starting 2 epoch)))
          = (queries (log epoch) + n)%nat.
Proof.
  apply (waiter_paces_queries Start sandbox_starting 60 5 epoch (Return tt)
           (polled sandbox_starting (polls sandbox_starting 2 epoch))).
  vm_compute. reflexivity.
Defined.

(** X2.  A waiter only reads: whatever the answers, all that a run of its
    loop adds to the log is status queries for the id of [self] and sleeps
    of 100 ms; what was logged before is kept. *)
Theorem waiter_only_polls (op : operation) (self : Sandbox) (timeout : Z)
    (fuel : nat) (w : world) (r : outcome unit) (w' : world) :
  wait_wrapped op self timeout fuel w = (r, w') ->
  exists new,
    log w' = (new ++ log w)%list /\ forallb (polls_only self) new = true.
Proof.
  rewrite wait_wrapped_polling. intros H.
  destruct (polling_inv _ _ _ _ _ _ H) as (n & _ & _ & Hr).
  destruct (polls_only_polls self n w) as (new & E & F).
  destruct r as [[]|e|].
  - destruct Hr as (_ & _ & ->).
    exists ({| issued_at := clock (queried self (polls self n w)); action := Sleep 100 |}
            :: {| issued_at := clock (polls self n w);
                  action := GetWorkspace (id self) |} :: new).
    split.
    + simpl. rewrite E. reflexivity.
    + simpl. rewrite F. unfold polls_only. simpl.
      rewrite String.eqb_refl. reflexivity.
  - destruct Hr as (_ & _ & ->).
    exists ({| issued_at := clock (polls self n w);
               action := GetWorkspace (id self) |} :: new).
    split.
    + simpl. rewrite E. reflexivity.
    + simpl. rewrite F. unfold polls_only. simpl.
      rewrite String.eqb_refl. reflexivity.
  - destruct Hr as (_ & ->). exists new. split; assumption.
Qed.

Lemma waiter_only_polls_witness :
  exists new,
    log (queried sandbox_failing_stop (polls sandbox_failing_stop 1 epoch))
    = (new ++ log epoch)%list
    /\ forallb (polls_only sandbox_failing_stop) new = true.
Proof.
  apply (waiter_only_polls Stop sandbox_failing_stop 60 5 epoch
           (Raise (DaytonaError
              "Sandbox sb-1 failed to stop with status: error, error reason: None"))).
  vm_compute. reflexivity.
Defined.

(** ** Waits that do not end *)

(** X3.  The stop waiter's loop sits out any number of failed queries: as
    long as every query raises with "validation error" in the text of the
    exception, it sleeps and asks again, and by itself never gives up. *)
Theorem stop_wait_outlasts_validation_errors (self : Sandbox) (timeout : Z)
    (fuel : nat) (w : world) :
  (forall k, exists e,
     answer (get_workspace_reply (sandbox_api self) k) = inl e
     /\ contains "validation error" (exc_str e) = true) ->
  wait_for_sandbox_stop_wrapped self timeout fuel w = (Running, polls self fuel w)
  /\ queries (log (polls self fuel w)) = (queries (log w) + fuel)%nat.
Proof.
  intros Hall. split; [|apply queries_polls].
  rewrite stop_wrapped_polling. rewrite <- (Nat.add_0_r fuel) at 1.
  rewrite polling_again_prefix; [reflexivity|].
  intros i _. destruct (Hall (queries (log w) + i)%nat) as (e & He & Hc).
  unfold stop_verdict. rewrite He, Hc. reflexivity.
Qed.

Lemma stop_wait_outlasts_validation_errors_witness :
  wait_for_sandbox_stop_wrapped sandbox_never_validates 0 40 epoch
  = (Running, polls sandbox_never_validates 40 epoch)
  /\ queries (log (polls sandbox_never_validates 40 epoch))
     = (queries (log epoch) + 40)%nat.
Proof.
  apply (stop_wait_outlasts_validation_errors sandbox_never_validates 0 40 epoch).
  intros k.
  exists {| exc_class := "ValidationError";
            exc_str := "1 validation error for Workspace" |}.
  destruct k; split; reflexivity.
Defined.

(** X4.  Neither loop tells one state from another unless it is its
    target or [error]: while the remote shows any other state (a stopped
    or archived sandbox, for the start waiter), the loop goes on asking,
    one query per unit of fuel, and never ends by itself. *)
Theorem wait_goes_on_off_target (op : operation) (self : Sandbox) (timeout : Z)
    (fuel : nat) (w : world) :
  (forall k, exists response,
     answer (get_workspace_reply (sandbox_api self) k) = inr response
     /\ state response <> target_state op
     /\ state response <> "error") ->
  wait_wrapped op self timeout fuel w = (Running, polls self fuel w)
  /\ queries (log (polls self fuel w)) = (queries (log w) + fuel)%nat.
Proof.
  intros Hall. split; [|apply queries_polls].
  rewrite wait_wrapped_polling. rewrite <- (Nat.add_0_r fuel) at 1.
  rewrite polling_again_prefix; [reflexivity|].
  intros i _.
  destruct (Hall (queries (log w) + i)%nat) as (response & Hans & Htgt & Herr).
  eapply turn_again_on_status; eassumption.
Qed.

Lemma wait_goes_on_off_target_witness :
  wait_wrapped Start sandbox_stopped 0 25 epoch
  = (Running, polls sandbox_stopped 25 epoch)
  /\ queries (log (polls sandbox_stopped 25 epoch)) = (queries (log epoch) + 25)%nat.
Proof.
  apply (wait_goes_on_off_target Start sandbox_stopped 0 25 epoch).
  intros k. exists {| state := "stopped"; error_reason := None |}.
  destruct k; repeat split; (reflexivity || discriminate).
Defined.

(** ** The error state, where it does end the wait *)

Lemma start_error_state_raises_witness :
  wait_for_sandbox_start_wrapped sandbox_failing_start 60 4 epoch
  = (Raise (DaytonaError
       (start_error_message sandbox_failing_start
          {| state := "error"; error_reason := Some "boom" |})),
     queried sandbox_failing_start (polled sandbox_failing_start epoch))
  /\ contains "boom"
       (start_error_message sandbox_failing_start
          {| state := "error"; error_reason := Some "boom" |}) = true.
Proof.
  apply (start_error_state_raises sandbox_failing_start 60 1 4 epoch
           (polled sandbox_failing_start epoch)
           {| state := "error"; error_reason := Some "boom" |}).
  - vm_compute. reflexivity.
  - reflexivity.
  - reflexivity.
  - lia.
Defined.

Lemma stop_error_state_raises_witness :
  wait_for_sandbox_stop_wrapped sandbox_failing_stop 60 4 epoch
  = (Raise (DaytonaError
       (stop_error_message sandbox_failing_stop
          {| state := "error"; error_reason := None |})),
     queried sandbox_failing_stop (polled sandbox_failing_stop epoch))
  /\ contains "None"
       (stop_error_message sandbox_failing_stop
          {| state := "error"; error_reason := None |}) = true.
Proof.
  apply (stop_error_state_raises sandbox_failing_stop 60 1 4 epoch
           (polled sandbox_failing_stop epoch)
           {| state := "error"; error_reason := None |}).
  - vm_compute. reflexivity.
  - reflexivity.
  - reflexivity.
  - vm_compute. reflexivity.
  - lia.
Defined.

(** * More on the setters *)

Lemma label_text_fmap_str (m : gmap string string) :
  label_text <$> (PyStr <$> m) = m.
Proof.
  apply map_eq. intros k. rewrite !lookup_fmap.
  destruct (m !! k); reflexivity.
Qed.

(** X7.  Labels that are strings already are sent as
    they are, letter for letter, and the caller gets what the API call
    gives: its value, or its exception as wrapped by the decorator.  So the
    labels that were sent, sent again, are the same payload. *)
Theorem set_labels_strings_verbatim
    (reraised : string -> PyException -> PyException)
    (self : Sandbox) (m : gmap string string) (labels : gmap string PyValue)
    (w : world) :
  let r := replace_labels_reply (sandbox_api self) (id self) {[ "labels" := m ]} in
  set_labels reraised self (PyStr <$> m) w
  = (match answer r with
     | inl e => Raise (reraised "Failed to set labels: " e)
     | inr v => Return v
     end,
     {| clock := (clock w + took r)%N;
        log := {| issued_at := clock w;
                  action := ReplaceLabels (id self) {[ "labels" := m ]} |} :: log w |})
  /\ label_text <$> (PyStr <$> (label_text <$> labels)) = label_text <$> labels.
Proof.
  split; [|apply label_text_fmap_str].
  unfold set_labels, intercept_errors, set_labels_wrapped, api_replace_labels,
    receive, bind, emit, elapse. cbn [ret raise].
  rewrite label_text_fmap_str.
  destruct (answer _); reflexivity.
Qed.

(** [set_autostop_interval] with its decorator, in one equation. *)
Lemma set_autostop_interval_eq (reraised : string -> PyException -> PyException)
    (interval : PyValue) (self : Sandbox) (w : world) :
  set_autostop_interval reraised interval (self, w) =
  let r := set_autostop_interval_reply (sandbox_api self) (id self) interval in
  let sent :=
    {| clock := (clock w + took r)%N;
       log := {| issued_at := clock w;
                 action := SetAutostopInterval (id self) interval |} :: log w |} in
  if negb (isinstance_int interval) || (int_value interval <? 0)%Z
  then (Raise (reraised "Failed to set auto-stop interval: "
                 (DaytonaError "Auto-stop interval must be a non-negative integer")),
        (self, w))
  else match answer r with
       | inl e => (Raise (reraised "Failed to set auto-stop interval: " e), (self, sent))
       | inr _ =>
           (Return tt,
            ({| id := id self;
                instance := {| auto_stop_interval := interval |};
                sandbox_api := sandbox_api self |},
             sent))
       end.
Proof.
  unfold set_autostop_interval, intercept_errors, set_autostop_interval_wrapped,
    bind, lift, api_set_autostop_interval, receive, bind, emit, elapse,
    assign_auto_stop_interval.
  destruct (isinstance_int interval); simpl; [|reflexivity].
  destruct (int_value interval <? 0)%Z; simpl; [reflexivity|].
  destruct (answer _) as [e|[]]; reflexivity.
Qed.

(** X8.  Calls in a row: after an interval has been
    set, a call with a bad argument raises, sends nothing and leaves the
    interval that was set; a call with another good argument replaces it.
    The object knows the last interval the API accepted. *)
Theorem set_autostop_interval_twice
    (reraised : string -> PyException -> PyException)
    (a b : PyValue) (self : Sandbox) (w : world) :
  isinstance_int a = true -> (0 <= int_value a)%Z ->
  answer (set_autostop_interval_reply (sandbox_api self) (id self) a) = inr tt ->
  let both :=
    (set_autostop_interval reraised a ;; set_autostop_interval reraised b) (self, w) in
  let first := {| issued_at := clock w; action := SetAutostopInterval (id self) a |} in
  ((isinstance_int b = false \/ (int_value b < 0)%Z) ->
     fst both
     = Raise (reraised "Failed to set auto-stop interval: "
                (DaytonaError "Auto-stop interval must be a non-negative integer"))
     /\ auto_stop_interval (instance (fst (snd both))) = a
     /\ log (snd (snd both)) = first :: log w)
  /\ (isinstance_int b = true -> (0 <= int_value b)%Z ->
      (answer (set_autostop_interval_reply (sandbox_api self) (id self) b) = inr tt ->
       fst both = Return tt
       /\ auto_stop_interval (instance (fst (snd both))) = b)
      /\ (forall e,
            answer (set_autostop_interval_reply (sandbox_api self) (id self) b) = inl e ->
            fst both = Raise (reraised "Failed to set auto-stop interval: " e)
            /\ auto_stop_interval (instance (fst (snd both))) = a)).
Proof.
  intros Hty Hnonneg Hok both first.
  assert (Hfirst : negb (isinstance_int a) || (int_value a <? 0)%Z = false).
  { rewrite Hty. simpl. apply Z.ltb_ge. exact Hnonneg. }
  assert (Hboth : both
    = set_autostop_interval reraised b
        ({| id := id self;
            instance := {| auto_stop_interval := a |};
            sandbox_api := sandbox_api self |},
         {| clock := (clock w
                      + took (set_autostop_interval_reply (sandbox_api self)
                                (id self) a))%N;
            log := first :: log w |})).
  { unfold both, bind. rewrite (set_autostop_interval_eq reraised a). cbv zeta.
    rewrite Hfirst, Hok. reflexivity. }
  clearbody both. subst both.
  rewrite (set_autostop_interval_eq reraised b). cbv zeta. cbn [id sandbox_api].
  split.
  - intros Hbad.
    assert (Hsecond : negb (isinstance_int b) || (int_value b <? 0)%Z = true).
    { destruct Hbad as [->|Hneg]; [reflexivity|].
      apply orb_true_iff. right. now apply Z.ltb_lt. }
    rewrite Hsecond. repeat split.
  - intros Htyb Hnnb.
    assert (Hsecond : negb (isinstance_int b) || (int_value b <? 0)%Z = false).
    { rewrite Htyb. simpl. apply Z.ltb_ge. exact Hnnb. }
    rewrite Hsecond. split.
    + intros ->. split; reflexivity.
    + intros e ->. split; reflexivity.
Qed.

Lemma set_autostop_interval_twice_witness :
  let both :=
    (set_autostop_interval prefixed (PyInt 30) ;;
     set_autostop_interval prefixed (PyInt (-1))) (sandbox_started, epoch) in
  fst both
  = Raise (prefixed "Failed to set auto-stop interval: "
             (DaytonaError "Auto-stop interval must be a non-negative integer"))
  /\ auto_stop_interval (instance (fst (snd both))) = PyInt 30
  /\ log (snd (snd both))
     = [ {| issued_at := 0; action := SetAutostopInterval "sb-1" (PyInt 30) |} ].
Proof.
  apply (proj1 (set_autostop_interval_twice prefixed (PyInt 30) (PyInt (-1))
                  sandbox_started epoch ltac:(reflexivity) ltac:(simpl; lia)
                  ltac:(reflexivity))).
  right. simpl. lia.
Defined.

(** * The resources of a sandbox *)

Lemma length_append (a s : string) :
  String.length (a +:+ s) = (String.length a + String.length s)%nat.
Proof.
  induction a as [|c a IH]; [reflexivity|].
  change (S (String.length (a +:+ s)) = S (String.length a + String.length s)).
  f_equal. exact IH.
Qed.

Lemma append_cancel_r (a b s : string) : a +:+ s = b +:+ s -> a = b.
Proof.
  revert b. induction a as [|c a IH]; intros [|d b] H.
  - reflexivity.
  - apply (f_equal String.length) in H. rewrite !length_append in H.
    simpl in H. lia.
  - apply (f_equal String.length) in H. rewrite !length_append in H.
    simpl in H. lia.
  - change (String c (a +:+ s) = String d (b +:+ s)) in H.
    injection H as -> H. f_equal. apply IH. exact H.
Qed.

(** A quota is shown as [default] when it is missing, when it is 0, and
    when it is the number the default stands for. *)
Lemma or_default_shown (q : option Z) (d : Z) :
  d <> 0%Z ->
  str (or_default q (pretty d)) = pretty d
  <-> q = None \/ q = Some 0%Z \/ q = Some d.
Proof.
  intros Hd. unfold or_default, truthy.
  destruct q as [n|]; [|split; [left; reflexivity | reflexivity]].
  destruct (Z.eqb_spec n 0) as [->|Hn]; simpl.
  - split; [right; left; reflexivity | reflexivity].
  - split.
    + intros H. right. right. f_equal. apply (inj pretty). exact H.
    + intros [H|[H|H]]; inversion H; subst; [contradiction | reflexivity].
Qed.

(** X9.  [to_sandbox_info] reports a quota of 0 like a missing
    one, by the default: "1" CPU, "2Gi" of memory, "10Gi" of disk, no GPU.
    So a sandbox shown with the default may have that quota, none, or 0;
    and the GPU count is absent exactly when it is missing or 0. *)
Theorem resources_defaults (instance : ApiQuotas) :
  let resources := to_sandbox_info_resources instance in
  (cpu resources = "1"
   <-> api_cpu instance = None \/ api_cpu instance = Some 0%Z
       \/ api_cpu instance = Some 1%Z)
  /\ (memory resources = "2Gi"
      <-> api_memory instance = None \/ api_memory instance = Some 0%Z
          \/ api_memory instance = Some 2%Z)
  /\ (disk resources = "10Gi"
      <-> api_disk instance = None \/ api_disk instance = Some 0%Z
          \/ api_disk instance = Some 10%Z)
  /\ (gpu resources = None
      <-> api_gpu instance = None \/ api_gpu instance = Some 0%Z)
  /\ (forall n, api_gpu instance = Some n -> n <> 0%Z ->
        gpu resources = Some (pretty n)).
Proof.
  cbv zeta. unfold to_sandbox_info_resources. cbn [cpu memory disk gpu].
  split; [|split; [|split; [|split]]].
  - apply (or_default_shown (api_cpu instance) 1). discriminate.
  - split; intros H.
    + apply (or_default_shown _ 2); [discriminate|].
      apply (append_cancel_r _ "2" "Gi"). exact H.
    + apply (proj2 (or_default_shown _ 2 ltac:(discriminate))) in H.
      change (str (or_default (api_memory instance) (pretty 2%Z)) +:+ "Gi"
              = pretty 2%Z +:+ "Gi").
      rewrite H. reflexivity.
  - split; intros H.
    + apply (or_default_shown _ 10); [discriminate|].
      apply (append_cancel_r _ "10" "Gi"). exact H.
    + apply (proj2 (or_default_shown _ 10 ltac:(discriminate))) in H.
      change (str (or_default (api_disk instance) (pretty 10%Z)) +:+ "Gi"
              = pretty 10%Z +:+ "Gi").
      rewrite H. reflexivity.
  - unfold truthy. destruct (api_gpu instance) as [n|].
    + destruct (Z.eqb_spec n 0) as [->|Hn]; simpl.
      * split; [right; reflexivity | reflexivity].
      * split; [discriminate | intros [H|H]; inversion H; contradiction].
    + split; [left; reflexivity | reflexivity].
  - intros n -> Hn. unfold truthy.
    destruct (Z.eqb_spec n 0); [contradiction | reflexivity].
Qed.

(** A sandbox with no CPU quota, no memory (0), 50 Gi of disk and 2 GPUs. *)
Lemma resources_defaults_witness :
  let resources :=
    to_sandbox_info_resources
      {| api_cpu := None; api_gpu := Some 2%Z;
         api_memory := Some 0%Z; api_disk := Some 50%Z |} in
  cpu resources = "1"
  /\ memory resources = "2Gi"
  /\ gpu resources = Some "2"
  /\ disk resources = "50Gi".
Proof.
  destruct (resources_defaults
              {| api_cpu := None; api_gpu := Some 2%Z;
                 api_memory := Some 0%Z; api_disk := Some 50%Z |})
    as (Hcpu & Hmem & _ & _ & Hgpu).
  split; [|split; [|split]].
  - apply (proj2 Hcpu). left. reflexivity.
  - apply (proj2 Hmem). right. left. reflexivity.
  - apply (Hgpu 2%Z); [reflexivity | discriminate].
  - reflexivity.
Defined.

(** * More on the deprecated names *)

Lemma logged_once_queries (ev : event) (w1 w2 : world) :
  is_query ev = false -> logged_once ev w1 w2 ->
  queries (log w1) = queries (log w2).
Proof.
  intros Hev [_ (new & old & -> & ->)]. unfold queries.
  rewrite !List.filter_app. simpl. rewrite Hev. reflexivity.
Qed.

Lemma logged_once_queried (ev : event) (self : Sandbox) (w1 w2 : world) :
  is_query ev = false -> logged_once ev w1 w2 ->
  logged_once ev (queried self w1) (queried self w2).
Proof.
  intros Hev H. pose proof (logged_once_queries _ _ _ Hev H) as Hq.
  destruct H as [Hc (new & old & E1 & E2)].
  unfold logged_once, queried. cbn [clock log]. rewrite Hq, Hc.
  split; [reflexivity|].
  exists ({| issued_at := clock w2; action := GetWorkspace (id self) |} :: new), old.
  rewrite E1, E2. split; reflexivity.
Qed.

Lemma logged_once_slept (ev : event) (w1 w2 : world) :
  logged_once ev w1 w2 -> logged_once ev (slept w1) (slept w2).
Proof.
  intros [Hc (new & old & E1 & E2)].
  unfold logged_once, slept. cbn [clock log]. rewrite Hc.
  split; [reflexivity|].
  exists ({| issued_at := clock w2; action := Sleep 100 |} :: new), old.
  rewrite E1, E2. split; reflexivity.
Qed.

Lemma logged_once_cut (ev : event) (d : N) (w1 w2 : world) :
  (issued_at ev <= d)%N -> logged_once ev w1 w2 ->
  logged_once ev (cut_at d w1) (cut_at d w2).
Proof.
  intros Hev [Hc (new & old & E1 & E2)].
  unfold logged_once, cut_at. cbn [clock log]. split; [reflexivity|].
  exists (List.filter (fun e => (issued_at e <=? d)%N) new),
         (List.filter (fun e => (issued_at e <=? d)%N) old).
  rewrite E1, E2, !List.filter_app. simpl.
  destruct (N.leb_spec (issued_at ev) d); [|lia]. split; reflexivity.
Qed.

Lemma logged_once_polling (ev : event) (turn : reply ApiSandbox -> verdict)
    (self : Sandbox) (fuel : nat) :
  is_query ev = false ->
  forall w1 w2, logged_once ev w1 w2 ->
  fst (polling turn self fuel w1) = fst (polling turn self fuel w2)
  /\ logged_once ev (snd (polling turn self fuel w1)) (snd (polling turn self fuel w2)).
Proof.
  intros Hev. induction fuel as [|fuel IH]; intros w1 w2 H; simpl.
  - split; [reflexivity | exact H].
  - rewrite (logged_once_queries _ _ _ Hev H).
    destruct (turn _); simpl.
    + split; [reflexivity|]. apply logged_once_slept, logged_once_queried; assumption.
    + split; [reflexivity|]. apply logged_once_queried; assumption.
    + apply IH. apply logged_once_slept, logged_once_queried; assumption.
Qed.

(** X10.  What a deprecated waiter adds to the current one is a single
    [DeprecationWarning], stamped with the time of the call: its log is the
    log of the current waiter with that one event put in, at the same clock
    and with the same outcome. *)
Theorem legacy_wait_warns_once (op : operation)
    (reraised : string -> PyException -> PyException)
    (self : Sandbox) (timeout : Z) (fuel : nat) (w : world) :
  fst (legacy_wait_for op reraised self timeout fuel w)
  = fst (wait_for op reraised self timeout fuel w)
  /\ logged_once
       {| issued_at := clock w;
          action := Warn "DeprecationWarning" (deprecation_reason op) |}
       (snd (legacy_wait_for op reraised self timeout fuel w))
       (snd (wait_for op reraised self timeout fuel w)).
Proof.
  set (ev := {| issued_at := clock w;
                action := Warn "DeprecationWarning" (deprecation_reason op) |}).
  assert (Hleg : legacy_wait_for op reraised self timeout fuel w
    = wait_for op reraised self timeout fuel
        {| clock := clock w; log := ev :: log w |}).
  { destruct op; reflexivity. }
  rewrite Hleg. clear Hleg.
  set (ww := {| clock := clock w; log := ev :: log w |}).
  assert (Hww : logged_once ev ww w).
  { split; [reflexivity|]. exists [], (log w). split; reflexivity. }
  rewrite !wait_for_eq.
  destruct (timeout <? 0)%Z; [split; [reflexivity | exact Hww]|].
  destruct (logged_once_polling ev (turn_of op self) self fuel eq_refl ww w Hww)
    as [Hr Hw].
  destruct (polling _ _ _ ww) as [r1 w1]. destruct (polling _ _ _ w) as [r2 w2].
  simpl in Hr, Hw. subst r2.
  replace (deadline timeout ww) with (deadline timeout w) by reflexivity.
  pose proof Hw as [Hc _]. rewrite Hc.
  destruct (_ && _); simpl.
  - split; [reflexivity|]. apply logged_once_cut; [|exact Hw].
    unfold deadline. simpl. lia.
  - split; [reflexivity | exact Hw].
Qed.
